(** * The voice screen of the inventory client (frontend/app/voice.tsx)

    A shallow embedding of the React component [Voice]: its six state
    cells, the effect registered at mount, and the four asynchronous
    functions [cleanupAudio], [startRecording], [stopRecording] and
    [uploadAudio].  The calls the screen makes on its collaborators
    (expo-av, fetch, Alert, console) are recorded in a chronological
    log; what the collaborators answer is supplied by a [Platform]. *)

From Stdlib Require Import Bool List Arith Lia.
From Stdlib Require Import Ascii String.
Import ListNotations.
Open Scope string_scope.
Set Warnings "-register-all".

(** ** JavaScript values, as far as a parsed JSON body needs them *)

Module Js.

(** What [response.json()] can produce, plus [undefined] for a property
    that is not there.  A JSON number is a double, and the screen
    observes a number in two ways only, ToBoolean and ToString; a
    number is therefore given by the text [Number.prototype.toString]
    prints for it ("5", "2.5", "1e+21").  Both zeros print "0" and JSON
    has no NaN, so a number is falsy exactly when that text is "0". *)
Inductive Value : Type :=
| Undefined
| Null
| Bool (b : bool)
| Num (shown : string)
| Str (s : string)
| Arr (items : list Value)
| Obj (fields : list (string * Value)).

(** ToBoolean. *)
Definition truthy (v : Value) : bool :=
  match v with
  | Undefined | Null => false
  | Bool b => b
  | Num shown => negb (String.eqb shown "0")
  | Str s => negb (String.eqb s EmptyString)
  | Arr _ | Obj _ => true
  end.

(** [a || b]. *)
Definition or (a b : Value) : Value := if truthy a then a else b.

(** Own property of an object literal parsed from JSON: when a key is
    repeated the last occurrence wins. *)
Fixpoint lookup (k : string) (fields : list (string * Value)) : option Value :=
  match fields with
  | [] => None
  | (k', v) :: rest =>
      match lookup k rest with
      | Some w => Some w
      | None => if String.eqb k k' then Some v else None
      end
  end.

(** [data.k] for the seven keys the screen reads (transcription,
    response, intent, item, qty, unit, error), none of which lives on a
    prototype: [None] is the TypeError raised on [null] and
    [undefined]. *)
Definition get (data : Value) (k : string) : option Value :=
  match data with
  | Undefined | Null => None
  | Obj fields =>
      match lookup k fields with
      | Some v => Some v
      | None => Some Undefined
      end
  | _ => Some Undefined
  end.

(** ToString, as a template literal and [+] with a string apply it to
    a value parsed from JSON; [None] is the TypeError it throws.  An
    object with an own key "toString" has a method that cannot be
    called, and [Object.prototype.valueOf] hands back the object, so
    the conversion fails; without that key [Object.prototype.toString]
    answers.  An array is joined with ",", [null] and [undefined]
    elements as the empty text, and fails when an element does. *)
Fixpoint to_string (v : Value) : option string :=
  match v with
  | Undefined => Some "undefined"
  | Null => Some "null"
  | Bool true => Some "true"
  | Bool false => Some "false"
  | Num shown => Some shown
  | Str s => Some s
  | Arr items =>
      let element x :=
        match x with
        | Undefined | Null => Some EmptyString
        | _ => to_string x
        end in
      (fix join (l : list Value) : option string :=
         match l with
         | [] => Some EmptyString
         | [x] => element x
         | x :: rest =>
             match element x, join rest with
             | Some a, Some b => Some (a ++ "," ++ b)
             | _, _ => None
             end
         end) items
  | Obj fields =>
      match lookup "toString" fields with
      | Some _ => None
      | None => Some "[object Object]"
      end
  end.

End Js.

(** The character U+0022, which the transcription is wrapped in. *)
Definition dquote : string := String "034"%char EmptyString.

(** ** The state of the component *)

(** The object [Audio.Recording.createAsync] hands back; [getURI()] is
    a string or [null]. *)
Record Recording : Type := mkRecording {
  rec_id : nat;
  rec_uri : option string
}.

Definition getURI (r : Recording) : Js.Value :=
  match rec_uri r with
  | Some u => Js.Str u
  | None => Js.Null
  end.

Record Decision : Type := mkDecision {
  intent : Js.Value;
  item : Js.Value;
  qty : Js.Value;
  unit_ : Js.Value
}.

(** The six [useState] cells of [Voice]. *)
Record VoiceState : Type := mkVoiceState {
  recording : option Recording;
  isRecording : bool;
  isProcessing : bool;
  aiResponse : Js.Value;
  transcription : string;
  decision : option Decision
}.

Definition initialState : VoiceState :=
  {| recording := None;
     isRecording := false;
     isProcessing := false;
     aiResponse := Js.Str "Hold the Button...";
     transcription := "Ask about stock or sales";
     decision := None |}.

(** ** Calls on the collaborators *)

Inductive ConsoleLevel : Type := ConsoleLog | ConsoleError.

Inductive Event : Type :=
| EvRequestPermissions (status : string)
| EvAlert (title message : string)
| EvStopAndUnload (r : Recording) (resolved : bool)
| EvSetAudioMode (resolved : bool)
| EvCreate (result : option Recording)
| EvFetch (uri : Js.Value)
| EvFetchSettled
| EvConsole (level : ConsoleLevel) (message : string).

(** What the platform answers.  Each answer may depend on everything
    that happened before, so any behaviour of the device is some
    [Platform]. *)
Record Platform : Type := mkPlatform {
  permission_status : string;
  stop_resolves : Recording -> list Event -> bool;
  set_mode_resolves : list Event -> bool;
  create_result : list Event -> option Recording
}.

(** How a pending [fetch] ends. *)
Inductive FetchOutcome : Type :=
| NetworkFailure
| HttpResponse (ok : bool) (body : option Js.Value).

(** ** The world the handlers run in *)

(** The live state cells, and every call made so far, oldest first. *)
Record Sys : Type := mkSys {
  screen : VoiceState;
  log : list Event
}.

(** An [await]ed computation either returns or throws. *)
Inductive Completion (A : Type) : Type :=
| Returned (a : A)
| Thrown.
Arguments Returned {A} a.
Arguments Thrown {A}.

Definition M (A : Type) : Type := Sys -> Completion A * Sys.

Definition ret {A} (a : A) : M A := fun sys => (Returned a, sys).

Definition bind {A B} (m : M A) (k : A -> M B) : M B :=
  fun sys =>
    match m sys with
    | (Returned a, sys') => k a sys'
    | (Thrown, sys') => (Thrown, sys')
    end.

Definition throw {A} : M A := fun sys => (Thrown, sys).

(** [try { body } catch { handler }]. *)
Definition try_catch {A} (body handler : M A) : M A :=
  fun sys =>
    match body sys with
    | (Returned a, sys') => (Returned a, sys')
    | (Thrown, sys') => handler sys'
    end.

(** [try { body } finally { cleanup }], for a cleanup that cannot throw. *)
Definition try_finally {A} (body : M A) (cleanup : M unit) : M A :=
  fun sys =>
    match body sys with
    | (c, sys') => (c, snd (cleanup sys'))
    end.

(** A promise nobody awaits: the call is made, a rejection goes nowhere. *)
Definition detached (m : M unit) : M unit :=
  fun sys => (Returned tt, snd (m sys)).

Declare Scope js_scope.
Delimit Scope js_scope with js.
Notation "x <- m ;; k" := (bind m (fun x => k))
  (at level 61, m at next level, right associativity) : js_scope.
Notation "m ;; k" := (bind m (fun _ => k))
  (at level 61, right associativity) : js_scope.
Open Scope js_scope.

Definition emit (e : Event) : M unit :=
  fun sys => (Returned tt, {| screen := screen sys; log := log sys ++ [e] |}).

Definition update (f : VoiceState -> VoiceState) : M unit :=
  fun sys => (Returned tt, {| screen := f (screen sys); log := log sys |}).

(** The setters of the six cells. *)
Definition setRecording (v : option Recording) : M unit :=
  update (fun s => {| recording := v; isRecording := isRecording s;
                      isProcessing := isProcessing s; aiResponse := aiResponse s;
                      transcription := transcription s; decision := decision s |}).

Definition setIsRecording (v : bool) : M unit :=
  update (fun s => {| recording := recording s; isRecording := v;
                      isProcessing := isProcessing s; aiResponse := aiResponse s;
                      transcription := transcription s; decision := decision s |}).

Definition setIsProcessing (v : bool) : M unit :=
  update (fun s => {| recording := recording s; isRecording := isRecording s;
                      isProcessing := v; aiResponse := aiResponse s;
                      transcription := transcription s; decision := decision s |}).

Definition setAiResponse (v : Js.Value) : M unit :=
  update (fun s => {| recording := recording s; isRecording := isRecording s;
                      isProcessing := isProcessing s; aiResponse := v;
                      transcription := transcription s; decision := decision s |}).

Definition setTranscription (v : string) : M unit :=
  update (fun s => {| recording := recording s; isRecording := isRecording s;
                      isProcessing := isProcessing s; aiResponse := aiResponse s;
                      transcription := v; decision := decision s |}).

Definition setDecision (v : option Decision) : M unit :=
  update (fun s => {| recording := recording s; isRecording := isRecording s;
                      isProcessing := isProcessing s; aiResponse := aiResponse s;
                      transcription := transcription s; decision := v |}).

(** The collaborators. *)
Definition requestPermissionsAsync (P : Platform) : M string :=
  emit (EvRequestPermissions (permission_status P)) ;; ret (permission_status P).

Definition alert (title message : string) : M unit := emit (EvAlert title message).

Definition console (level : ConsoleLevel) (message : string) : M unit :=
  emit (EvConsole level message).

Definition stopAndUnloadAsync (P : Platform) (r : Recording) : M unit :=
  fun sys =>
    let resolved := stop_resolves P r (log sys) in
    ((if resolved then Returned tt else Thrown),
     {| screen := screen sys; log := log sys ++ [EvStopAndUnload r resolved] |}).

Definition setAudioModeAsync (P : Platform) : M unit :=
  fun sys =>
    let resolved := set_mode_resolves P (log sys) in
    ((if resolved then Returned tt else Thrown),
     {| screen := screen sys; log := log sys ++ [EvSetAudioMode resolved] |}).

Definition createAsync (P : Platform) : M Recording :=
  fun sys =>
    let result := create_result P (log sys) in
    (match result with Some r => Returned r | None => Thrown end,
     {| screen := screen sys; log := log sys ++ [EvCreate result] |}).

(** ** The component

    The functions below are closures of one render: [render] is the
    state that render saw, and stays what it was while the function
    runs; the setters write the live cells. *)

Section Voice.

Variable P : Platform.

(** The effect of [useEffect(..., [])], run once after the first render. *)
Definition mountEffect : M unit :=
  status <- requestPermissionsAsync P ;;
  if negb (String.eqb status "granted")
  then alert "Permission missing" "Please allow microphone access."
  else ret tt.

(** The function that effect returns. *)
Definition effectCleanup (render : VoiceState) : M unit :=
  match recording render with
  | Some r => detached (stopAndUnloadAsync P r)
  | None => ret tt
  end.

Definition cleanupAudio (render : VoiceState) : M unit :=
  try_catch
    (match recording render with
     | Some r => stopAndUnloadAsync P r ;; setRecording None
     | None => ret tt
     end ;;
     setAudioModeAsync P)
    (console ConsoleLog "Cleanup warning:").

Definition startRecording (render : VoiceState) : M unit :=
  if isProcessing render then ret tt
  else
    try_catch
      (cleanupAudio render ;;
       setIsRecording true ;;
       setAiResponse (Js.Str "Listening...") ;;
       setDecision None ;;
       newRecording <- createAsync P ;;
       setRecording (Some newRecording))
      (console ConsoleError "Failed to start recording" ;;
       setIsRecording false ;;
       setAiResponse (Js.Str "❌ Mic Error. Try again.")).

(** [uploadAudio] up to its [await fetch(...)]: answers whether a
    request went out. *)
Definition uploadAudio_issue (uri : Js.Value) : M bool :=
  if negb (Js.truthy uri) then ret false
  else
    setIsProcessing true ;;
    setAiResponse (Js.Str "Processing...") ;;
    setDecision None ;;
    emit (EvFetch uri) ;;
    ret true.

(** [await fetch(...)] and [await response.json()], once the request
    has ended as [o]. *)
Definition awaitFetch (o : FetchOutcome) : M (bool * Js.Value) :=
  emit EvFetchSettled ;;
  match o with
  | NetworkFailure => throw
  | HttpResponse ok None => throw
  | HttpResponse ok (Some data) => ret (ok, data)
  end.

(** ToString where the program applies it: throws when it fails. *)
Definition toString (v : Js.Value) : M string :=
  match Js.to_string v with
  | Some text => ret text
  | None => throw
  end.

(** A property read, throwing on [null]. *)
Definition prop (data : Js.Value) (k : string) : M Js.Value :=
  match Js.get data k with
  | Some v => ret v
  | None => throw
  end.

(** The rest of [uploadAudio], after the request has ended as [o]. *)
Definition uploadAudio_settle (o : FetchOutcome) : M unit :=
  try_finally
    (try_catch
       (response <- awaitFetch o ;;
        let (ok, data) := response in
        if ok then
          t <- prop data "transcription" ;;
          shown <- (if Js.truthy t
                    then text <- toString t ;; ret (dquote ++ text ++ dquote)
                    else ret "—") ;;
          setTranscription shown ;;
          r <- prop data "response" ;;
          setAiResponse (Js.or r (Js.Str "No response")) ;;
          d_intent <- prop data "intent" ;;
          d_item <- prop data "item" ;;
          d_qty <- prop data "qty" ;;
          d_unit <- prop data "unit" ;;
          if Js.truthy d_intent && Js.truthy d_item
             && Js.truthy d_qty && Js.truthy d_unit
          then setDecision (Some {| intent := d_intent; item := d_item;
                                    qty := d_qty; unit_ := d_unit |})
          else ret tt
        else
          e <- prop data "error" ;;
          message <- toString (Js.or e (Js.Str "Unknown error")) ;;
          setAiResponse (Js.Str ("❌ Error: " ++ message)))
       (console ConsoleError "Upload failed:" ;;
        setAiResponse (Js.Str "❌ Could not connect to server.")))
    (setIsProcessing false).

(** A whole call of [uploadAudio] whose request ends as [o]. *)
Definition uploadAudio (o : FetchOutcome) (uri : Js.Value) : M unit :=
  issued <- uploadAudio_issue uri ;;
  if issued then uploadAudio_settle o else ret tt.

(** [stopRecording] does not await [uploadAudio]: it ends with the
    request pending. *)
Definition stopRecording (render : VoiceState) : M unit :=
  match recording render with
  | None => ret tt
  | Some r =>
      setIsRecording false ;;
      try_catch
        (stopAndUnloadAsync P r ;;
         let uri := getURI r in
         setRecording None ;;
         detached (uploadAudio_issue uri ;; ret tt))
        (console ConsoleError "Stop error:" ;;
         setRecording None)
  end.

End Voice.

(** ** A mounted screen and what happens to it *)

(** A mounted component: the live world, and the render whose closures
    the effect of [useEffect(..., [])] keeps.  The dependency list is
    empty, so that effect is never run again and its cleanup is the one
    built by the first render. *)
Record Instance : Type := mkInstance {
  world : Sys;
  mountRender : VoiceState
}.

Inductive Action : Type :=
| PressIn
| PressOut
| FetchEnds (o : FetchOutcome).

(** Requests issued and not yet ended. *)
Definition in_flight (l : list Event) : nat :=
  fold_left
    (fun n e =>
       match e with
       | EvFetch _ => S n
       | EvFetchSettled => Nat.pred n
       | _ => n
       end) l 0.

Definition same_recording (a b : Recording) : bool := Nat.eqb (rec_id a) (rec_id b).

(** The recordings the microphone is held for: created, and no
    [stopAndUnloadAsync] on them has resolved. *)
Definition held_step (h : list Recording) (e : Event) : list Recording :=
  match e with
  | EvCreate (Some r) => (h ++ [r])%list
  | EvStopAndUnload r true => filter (fun r' => negb (same_recording r' r)) h
  | _ => h
  end.

Definition held (l : list Event) : list Recording := fold_left held_step l [].

Definition holds (r : Recording) (l : list Event) : bool :=
  existsb (fun r' => same_recording r' r) (held l).

Arguments in_flight : simpl never.
Arguments held : simpl never.

Section Lifecycle.

Variable P : Platform.

Definition mount : Instance :=
  {| world := snd (mountEffect P {| screen := initialState; log := [] |});
     mountRender := initialState |}.

(** The gesture handlers are those of the latest render, which saw the
    live state.  Here handlers run one at a time, each to its end
    before the next gesture: [run] reaches the histories without
    interleaving, and the theorems stated on it hold under that
    condition.  [moment] and [play] cut the handlers at their awaits. *)
Definition step (i : Instance) (a : Action) : Instance :=
  let w := world i in
  {| world :=
       match a with
       | PressIn => snd (startRecording P (screen w) w)
       | PressOut => snd (stopRecording P (screen w) w)
       | FetchEnds o =>
           if Nat.ltb 0 (in_flight (log w))
           then snd (uploadAudio_settle o w)
           else w
       end;
     mountRender := mountRender i |}.

Definition run (actions : list Action) : Instance := fold_left step actions mount.

(** Unmount runs the cleanup of the mount effect. *)
Definition forceTeardown (i : Instance) : Instance :=
  {| world := snd (effectCleanup P (mountRender i) (world i));
     mountRender := mountRender i |}.

End Lifecycle.

(** A device on which everything works: the n-th call yields recording n. *)
Definition workingDevice : Platform :=
  {| permission_status := "granted";
     stop_resolves := fun _ _ => true;
     set_mode_resolves := fun _ => true;
     create_result := fun l =>
       Some {| rec_id := List.length l; rec_uri := Some "file:///cache/recording.wav" |} |}.

(** A device whose user refused the microphone: [createAsync] rejects. *)
Definition deniedDevice : Platform :=
  {| permission_status := "denied";
     stop_resolves := fun _ _ => true;
     set_mode_resolves := fun _ => true;
     create_result := fun _ => None |}.

(** ** Vocabulary of the properties *)

(** A device whose stop call always throws. *)
Definition stuckDevice : Platform :=
  {| permission_status := "granted";
     stop_resolves := fun _ _ => false;
     set_mode_resolves := fun _ => true;
     create_result := fun l => Some {| rec_id := List.length l; rec_uri := Some "file:///a.wav" |} |}.

(** The events one call of [stopRecording] adds to the log. *)
Definition stopRecording_events (P : Platform) (render : VoiceState) (sys : Sys)
  : list Event :=
  match recording render with
  | None => []
  | Some r =>
      if stop_resolves P r (log sys)
      then EvStopAndUnload r true ::
             (if Js.truthy (getURI r) then [EvFetch (getURI r)] else [])
      else [EvStopAndUnload r false; EvConsole ConsoleError "Stop error:"]
  end.

(** The screen is idle: nothing recorded, nothing being processed. *)
Definition Idle (s : VoiceState) : Prop :=
  recording s = None /\ isRecording s = false /\ isProcessing s = false.

(** Either nothing is in flight and nothing is being processed, or one
    request is in flight, the screen is processing and holds no
    recording. *)
Definition one_upload (sys : Sys) : Prop :=
  (in_flight (log sys) = 0 /\ isProcessing (screen sys) = false) \/
  (in_flight (log sys) = 1 /\ isProcessing (screen sys) = true /\
   recording (screen sys) = None).

Definition nullish (v : Js.Value) : bool :=
  match v with
  | Js.Undefined | Js.Null => true
  | _ => false
  end.

(** [data.k], where reading cannot throw. *)
Definition field (data : Js.Value) (k : string) : Js.Value :=
  match Js.get data k with
  | Some v => v
  | None => Js.Undefined
  end.

(** The test [data.intent && data.item && data.qty && data.unit]. *)
Definition all_four_truthy (data : Js.Value) : bool :=
  Js.truthy (field data "intent") && Js.truthy (field data "item")
  && Js.truthy (field data "qty") && Js.truthy (field data "unit").

(** Key [k] is in the body with a value other than [null]. *)
Definition present_non_null (data : Js.Value) (k : string) : bool :=
  match data with
  | Js.Obj fields =>
      match Js.lookup k fields with
      | Some v => negb (nullish v)
      | None => false
      end
  | _ => false
  end.

Definition all_four_present (data : Js.Value) : bool :=
  present_non_null data "intent" && present_non_null data "item"
  && present_non_null data "qty" && present_non_null data "unit".

Definition decision_of (data : Js.Value) : Decision :=
  {| intent := field data "intent"; item := field data "item";
     qty := field data "qty"; unit_ := field data "unit" |}.

Definition quoted (s : string) : string := dquote ++ s ++ dquote.

(** The transcription line a 2xx body gives: the text between double
    quotes, a dash when the field is falsy, [None] when the template
    literal throws. *)
Definition transcription_text (data : Js.Value) : option string :=
  if Js.truthy (field data "transcription")
  then option_map quoted (Js.to_string (field data "transcription"))
  else Some "—".

(** The text a non-2xx body gives, [None] when the concatenation throws. *)
Definition error_text (data : Js.Value) : option string :=
  option_map (fun message => "❌ Error: " ++ message)
    (Js.to_string (Js.or (field data "error") (Js.Str "Unknown error"))).

Definition is_none {A} (o : option A) : bool :=
  match o with
  | Some _ => false
  | None => true
  end.

(** A field that is a string, or is not there (or null). *)
Definition optional_string (v : Js.Value) : option (option string) :=
  match v with
  | Js.Str text => Some (Some text)
  | Js.Undefined | Js.Null => Some None
  | _ => None
  end.

(** The outcomes that end in the [catch] of [uploadAudio]. *)
Definition settle_throws (o : FetchOutcome) : bool :=
  match o with
  | NetworkFailure => true
  | HttpResponse _ None => true
  | HttpResponse ok (Some data) =>
      nullish data ||
      (if ok then is_none (transcription_text data) else is_none (error_text data))
  end.

(** A request that got no answer, or an answer that cannot be read. *)
Definition unreadable (o : FetchOutcome) : bool :=
  match o with
  | NetworkFailure => true
  | HttpResponse _ None => true
  | HttpResponse _ (Some data) => nullish data
  end.

(** Scenario B of the specification. *)
Definition riceBody : Js.Value :=
  Js.Obj [("response", Js.Str "Added 5 kg Rice"); ("intent", Js.Str "ADD");
          ("item", Js.Str "Rice"); ("qty", Js.Num "5"); ("unit", Js.Str "kg")].

Definition riceBodyWithTranscription : Js.Value :=
  Js.Obj [("transcription", Js.Str "add five kilos of rice");
          ("response", Js.Str "Added 5 kg Rice"); ("intent", Js.Str "ADD");
          ("item", Js.Str "Rice"); ("qty", Js.Num "5"); ("unit", Js.Str "kg")].


(** The one permission notice of the screen: the alert raised by the
    mount effect. *)
Definition permissionNotice : Event :=
  EvAlert "Permission missing" "Please allow microphone access.".

(** The screen has never held a recording nor started an upload. *)
Definition never_recorded (sys : Sys) : Prop :=
  recording (screen sys) = None /\
  isProcessing (screen sys) = false /\
  in_flight (log sys) = 0.

(** A device with permission whose microphone does not start. *)
Definition brokenMicDevice : Platform :=
  {| permission_status := "granted";
     stop_resolves := fun _ _ => true;
     set_mode_resolves := fun _ => true;
     create_result := fun _ => None |}.

(** ** The handlers cut at their awaits *)

Section Interleaving.

Variable P : Platform.

(** [startRecording] up to its [await Audio.Recording.createAsync]:
    answers whether that call was made. *)
Definition startRecording_begin (render : VoiceState) : M bool :=
  if isProcessing render then ret false
  else
    cleanupAudio P render ;;
    setIsRecording true ;;
    setAiResponse (Js.Str "Listening...") ;;
    setDecision None ;;
    ret true.

(** The rest of [startRecording], once [createAsync] has settled. *)
Definition startRecording_resume : M unit :=
  try_catch
    (newRecording <- createAsync P ;;
     setRecording (Some newRecording))
    (console ConsoleError "Failed to start recording" ;;
     setIsRecording false ;;
     setAiResponse (Js.Str "❌ Mic Error. Try again.")).

(** [stopRecording] up to its [await recording.stopAndUnloadAsync()]:
    answers the recording its closure holds, if it made the call. *)
Definition stopRecording_begin (render : VoiceState) : M (option Recording) :=
  match recording render with
  | None => ret None
  | Some r => setIsRecording false ;; ret (Some r)
  end.

(** The rest of [stopRecording], once that stop has settled. *)
Definition stopRecording_resume (r : Recording) : M unit :=
  try_catch
    (stopAndUnloadAsync P r ;;
     let uri := getURI r in
     setRecording None ;;
     detached (uploadAudio_issue uri ;; ret tt))
    (console ConsoleError "Stop error:" ;;
     setRecording None).

(** A mounted screen whose handlers may be suspended: the live world,
    the [createAsync] calls awaited, and the recordings whose stop is
    awaited, oldest first. *)
Record Interleaved : Type := mkInterleaved {
  live : Sys;
  pendingCreates : nat;
  pendingStops : list Recording
}.

Inductive Moment : Type :=
| PressBegins
| CreateSettles
| ReleaseBegins
| StopSettles
| RequestSettles (o : FetchOutcome).

(** One task of the event loop.  A gesture runs the handler of the
    latest render up to its await; a settlement resumes the oldest
    handler waiting for it, and does nothing when none waits. *)
Definition moment (i : Interleaved) (m : Moment) : Interleaved :=
  let w := live i in
  match m with
  | PressBegins =>
      match startRecording_begin (screen w) w with
      | (Returned true, w') =>
          {| live := w'; pendingCreates := S (pendingCreates i);
             pendingStops := pendingStops i |}
      | (_, w') =>
          {| live := w'; pendingCreates := pendingCreates i;
             pendingStops := pendingStops i |}
      end
  | CreateSettles =>
      match pendingCreates i with
      | O => i
      | S n =>
          {| live := snd (startRecording_resume w); pendingCreates := n;
             pendingStops := pendingStops i |}
      end
  | ReleaseBegins =>
      match stopRecording_begin (screen w) w with
      | (Returned (Some r), w') =>
          {| live := w'; pendingCreates := pendingCreates i;
             pendingStops := (pendingStops i ++ [r])%list |}
      | (_, w') =>
          {| live := w'; pendingCreates := pendingCreates i;
             pendingStops := pendingStops i |}
      end
  | StopSettles =>
      match pendingStops i with
      | [] => i
      | r :: rest =>
          {| live := snd (stopRecording_resume r w);
             pendingCreates := pendingCreates i; pendingStops := rest |}
      end
  | RequestSettles o =>
      {| live := if Nat.ltb 0 (in_flight (log w))
                 then snd (uploadAudio_settle o w) else w;
         pendingCreates := pendingCreates i; pendingStops := pendingStops i |}
  end.

Definition play (moments : list Moment) : Interleaved :=
  fold_left moment moments
    {| live := world (mount P); pendingCreates := 0; pendingStops := [] |}.

End Interleaving.

(** A gesture handled to its end before anything else happens. *)
Definition uninterrupted (a : Action) : list Moment :=
  match a with
  | PressIn => [PressBegins; CreateSettles]
  | PressOut => [ReleaseBegins; StopSettles]
  | FetchEnds o => [RequestSettles o]
  end.

(** ** What the screen draws *)

(** The parts of the JSX of [Voice] that depend on the state cells.
    [headline] is the child expression handed to [Text], a value; what
    React draws for a child that is not a string is not part of this
    record. *)
Record View : Type := mkView {
  micClass : string;
  micOpacityPercent : nat;
  headline : Js.Value;
  caption : string;
  panel : option (list (string * Js.Value));
  spinner : bool;
  buttonDisabled : bool;
  buttonClass : string;
  buttonTextClass : string;
  buttonLabel : string
}.

Definition render (s : VoiceState) : View :=
  {| micClass := if isRecording s then "bg-red-100" else "bg-purple-50";
     micOpacityPercent := if isRecording s then 50 else 100;
     headline := if isProcessing s then Js.Str "Thinking..." else aiResponse s;
     caption := transcription s;
     panel :=
       match decision s with
       | Some d => Some [("Action: ", intent d); ("Item: ", item d);
                         ("Quantity: ", qty d); ("Unit: ", unit_ d)]
       | None => None
       end;
     spinner := isProcessing s;
     buttonDisabled := isProcessing s;
     buttonClass := if isRecording s then "bg-red-500" else "bg-white";
     buttonTextClass := if isRecording s then "text-white" else "text-[#7E22CE]";
     buttonLabel :=
       if isProcessing s then "Please Wait..."
       else if isRecording s then "Release to Send"
       else "Hold to Speak" |}.

(** ** The root layout *)

(** A navigation theme: the flag and the colour table; the spread
    copies whatever else a theme carries. *)
Record Theme : Type := mkTheme {
  theme_dark : bool;
  theme_colors : list (string * string)
}.

(** [{...colors, k: v}]: an existing key keeps its place and takes the
    new value, a new key goes last. *)
Fixpoint spread_set (k v : string) (colors : list (string * string))
  : list (string * string) :=
  match colors with
  | [] => [(k, v)]
  | (k', v') :: rest =>
      if String.eqb k k' then (k', v) :: rest
      else (k', v') :: spread_set k v rest
  end.

Fixpoint color_of (k : string) (colors : list (string * string)) : option string :=
  match colors with
  | [] => None
  | (k', v) :: rest => if String.eqb k k' then Some v else color_of k rest
  end.

(** [{...base, colors: {...base.colors, background: c, card: c}}]. *)
Definition customTheme (base : Theme) (c : string) : Theme :=
  {| theme_dark := theme_dark base;
     theme_colors := spread_set "card" c (spread_set "background" c (theme_colors base)) |}.

Inductive LayoutEvent : Type :=
| EvVerifyInstallation (returned : bool)
| EvWarn
| EvHideSplash.

Record Layout : Type := mkLayout {
  layoutTheme : Theme;
  statusBarStyle : string
}.

Section RootLayout.

(** The two themes of @react-navigation/native. *)
Variables DefaultTheme DarkTheme : Theme.

Definition CustomLightTheme : Theme := customTheme DefaultTheme "#ffffff".
Definition CustomDarkTheme : Theme := customTheme DarkTheme "#000000".

Definition truthy_error (error : option string) : bool :=
  match error with
  | Some _ => true
  | None => false
  end.

Definition is_dark (colorScheme : option string) : bool :=
  match colorScheme with
  | Some c => String.eqb c "dark"
  | None => false
  end.

(** The effect on [loaded, error]. *)
Definition layoutEffect (dev verifyReturns loaded : bool) (error : option string)
  : list LayoutEvent :=
  ((if dev
    then EvVerifyInstallation verifyReturns :: (if verifyReturns then [] else [EvWarn])
    else []) ++
   (if loaded || truthy_error error then [EvHideSplash] else []))%list.

(** What [RootLayout] returns: [None] is [null]. *)
Definition RootLayout (colorScheme : option string) (loaded : bool)
  (error : option string) : option Layout :=
  if negb loaded && negb (truthy_error error) then None
  else
    Some {| layoutTheme :=
              if is_dark colorScheme then CustomDarkTheme else CustomLightTheme;
            statusBarStyle := if is_dark colorScheme then "light" else "dark" |}.

End RootLayout.

(** ** Vocabulary of the further properties *)

(** The recording in the cell, as a list. *)
Definition cell_recordings (s : VoiceState) : list Recording :=
  match recording s with
  | Some r => [r]
  | None => []
  end.

(** The shapes the screen has between two handlers: not processing,
    and then recording only with a recording in the cell; or
    processing one request, with nothing recorded. *)
Definition well_shaped (sys : Sys) : Prop :=
  (isProcessing (screen sys) = false /\ in_flight (log sys) = 0 /\
   (isRecording (screen sys) = true -> recording (screen sys) <> None)) \/
  (isProcessing (screen sys) = true /\ in_flight (log sys) = 1 /\
   recording (screen sys) = None /\ isRecording (screen sys) = false).

Definition without_recording (s : VoiceState) : VoiceState :=
  {| recording := None; isRecording := isRecording s;
     isProcessing := isProcessing s; aiResponse := aiResponse s;
     transcription := transcription s; decision := decision s |}.

(** The calls of [Audio.setAudioModeAsync] inside [cleanupAudio],
    made when the log is [l]. *)
Definition mode_events (P : Platform) (l : list Event) : list Event :=
  if set_mode_resolves P l then [EvSetAudioMode true]
  else [EvSetAudioMode false; EvConsole ConsoleLog "Cleanup warning:"].

(** The calls of one [cleanupAudio]. *)
Definition cleanup_events (P : Platform) (render : VoiceState) (l : list Event)
  : list Event :=
  match recording render with
  | Some r =>
      if stop_resolves P r l
      then EvStopAndUnload r true :: mode_events P (l ++ [EvStopAndUnload r true])
      else [EvStopAndUnload r false; EvConsole ConsoleLog "Cleanup warning:"]
  | None => mode_events P l
  end.

(** The calls a settled request adds. *)
Definition settle_events (o : FetchOutcome) : list Event :=
  EvFetchSettled ::
    (if settle_throws o then [EvConsole ConsoleError "Upload failed:"] else []).


(** A device on which everything works, except that the stop asked
    for when three calls have been made is answered as [overlapping]
    says. *)
Definition overlapDevice (overlapping : bool) : Platform :=
  {| permission_status := "granted";
     stop_resolves := fun _ l => if Nat.eqb (List.length l) 3 then overlapping else true;
     set_mode_resolves := fun _ => true;
     create_result := fun l =>
       Some {| rec_id := List.length l; rec_uri := Some "file:///cache/recording.wav" |} |}.

(** Press, release, press again while the stop of the release is
    awaited, then the stop settles, the second recording is created,
    and the second release follows. *)
Definition hastySchedule : list Moment :=
  [PressBegins; CreateSettles; ReleaseBegins; PressBegins; StopSettles;
   CreateSettles; ReleaseBegins; StopSettles].

(** * Properties *)

(** Unfolds the monad and the setters, leaving the control flow. *)
Ltac js_unfold :=
  unfold startRecording_begin, startRecording_resume, stopRecording_begin,
    stopRecording_resume, startRecording, stopRecording, uploadAudio,
    uploadAudio_settle,
    uploadAudio_issue, awaitFetch, prop, toString, cleanupAudio, effectCleanup,
    mountEffect, requestPermissionsAsync, alert, console, stopAndUnloadAsync,
    setAudioModeAsync, createAsync, setRecording, setIsRecording,
    setIsProcessing, setAiResponse, setTranscription, setDecision, update,
    emit, try_catch, try_finally, detached, bind, ret, throw in *.

Ltac js_run := js_unfold; cbn [fst snd screen log recording isRecording
  isProcessing aiResponse transcription decision negb] in *.

(** ** Bookkeeping on the log *)

Lemma in_flight_snoc (l : list Event) (e : Event) :
  in_flight (l ++ [e]) =
  match e with
  | EvFetch _ => S (in_flight l)
  | EvFetchSettled => Nat.pred (in_flight l)
  | _ => in_flight l
  end.
Proof. unfold in_flight. rewrite fold_left_app. reflexivity. Qed.

Lemma held_app (l added : list Event) :
  held (l ++ added) = fold_left held_step added (held l).
Proof. unfold held. apply fold_left_app. Qed.

Lemma held_snoc (l : list Event) (e : Event) :
  held (l ++ [e]) = held_step (held l) e.
Proof. apply held_app. Qed.

Lemma released_not_held (r : Recording) (h : list Recording) :
  existsb (fun r' => same_recording r' r)
          (filter (fun r' => negb (same_recording r' r)) h) = false.
Proof.
  induction h as [|x h IH]; [reflexivity|].
  cbn [filter]. destruct (same_recording x r) eqn:E; cbn [negb]; [exact IH|].
  cbn [existsb]. now rewrite E, IH.
Qed.

Lemma holds_after_release (r : Recording) (l : list Event) :
  holds r (l ++ [EvStopAndUnload r true]) = false.
Proof. unfold holds. rewrite held_snoc. apply released_not_held. Qed.

(** ** Shared facts about the two gesture handlers *)

Lemma startRecording_skipped (P : Platform) (render : VoiceState) (sys : Sys) :
  isProcessing render = true ->
  startRecording P render sys = (Returned tt, sys).
Proof. intros H. unfold startRecording. now rewrite H. Qed.

Lemma stopRecording_rejected (P : Platform) (render : VoiceState) (sys : Sys)
  (r : Recording) :
  recording render = Some r ->
  stop_resolves P r (log sys) = false ->
  stopRecording P render sys =
  (Returned tt,
   {| screen :=
        {| recording := None; isRecording := false;
           isProcessing := isProcessing (screen sys);
           aiResponse := aiResponse (screen sys);
           transcription := transcription (screen sys);
           decision := decision (screen sys) |};
      log := (log sys ++ [EvStopAndUnload r false;
                          EvConsole ConsoleError "Stop error:"])%list |}).
Proof.
  intros Hr Hs. js_run. rewrite Hr. cbn. rewrite Hs. cbn.
  now rewrite <- app_assoc.
Qed.

(** ** uploadAudio without an artifact *)

(** C9. When [uri] is [null] or [undefined], [uploadAudio] returns at
    its first line: no setter runs, no request is issued, and the
    state cells (isProcessing, aiResponse, transcription, decision)
    and the log are what they were. *)
Theorem uploadAudio_without_uri_is_noop :
  forall (o : FetchOutcome) (sys : Sys),
    uploadAudio o Js.Null sys = (Returned tt, sys) /\
    uploadAudio o Js.Undefined sys = (Returned tt, sys) /\
    uploadAudio_issue Js.Null sys = (Returned false, sys) /\
    uploadAudio_issue Js.Undefined sys = (Returned false, sys).
Proof. intros o sys. repeat split. Qed.

(** ** stopRecording *)

Lemma stopRecording_without_recording (P : Platform) (render : VoiceState) (sys : Sys) :
  recording render = None -> stopRecording P render sys = (Returned tt, sys).
Proof. intros H. unfold stopRecording. now rewrite H. Qed.

(** What a release does when the hardware call resolves. *)
Lemma stopRecording_resolved (P : Platform) (render : VoiceState) (sys : Sys) (r : Recording) :
  recording render = Some r ->
  stop_resolves P r (log sys) = true ->
  log (snd (stopRecording P render sys)) =
    (log sys ++ EvStopAndUnload r true ::
       (if Js.truthy (getURI r) then [EvFetch (getURI r)] else []))%list
  /\ recording (screen (snd (stopRecording P render sys))) = None
  /\ isRecording (screen (snd (stopRecording P render sys))) = false
  /\ isProcessing (screen (snd (stopRecording P render sys))) =
       (Js.truthy (getURI r) || isProcessing (screen sys)).
Proof.
  intros Hr Hs. js_run. rewrite Hr. cbn. rewrite Hs. cbn.
  destruct (Js.truthy (getURI r)); cbn; rewrite <- ?app_assoc; auto.
Qed.

(** C10. When [stopAndUnloadAsync] throws inside [stopRecording], the
    only calls made are the failed stop and the console report: no
    request is issued; the recording cell is reset to [null], and the
    response text and the decision shown before are kept. *)
Theorem stopRecording_when_stop_throws :
  forall (P : Platform) (render : VoiceState) (sys : Sys) (r : Recording),
    recording render = Some r ->
    stop_resolves P r (log sys) = false ->
    let sys' := snd (stopRecording P render sys) in
    log sys' =
      (log sys ++ [EvStopAndUnload r false; EvConsole ConsoleError "Stop error:"])%list
    /\ (forall uri, ~ In (EvFetch uri) [EvStopAndUnload r false;
                                       EvConsole ConsoleError "Stop error:"])
    /\ recording (screen sys') = None
    /\ aiResponse (screen sys') = aiResponse (screen sys)
    /\ decision (screen sys') = decision (screen sys)
    /\ transcription (screen sys') = transcription (screen sys)
    /\ isProcessing (screen sys') = isProcessing (screen sys).
Proof.
  intros P render sys r Hr Hs. js_run. rewrite Hr. cbn. rewrite Hs. cbn.
  rewrite <- app_assoc. repeat split.
  intros uri [H|[H|[]]]; discriminate H.
Qed.

Lemma stopRecording_when_stop_throws_witness :
  let r := {| rec_id := 2; rec_uri := Some "file:///a.wav" |} in
  let w := world (run stuckDevice [PressIn]) in
  let w' := snd (stopRecording stuckDevice (screen w) w) in
  recording (screen w) = Some r /\
  stop_resolves stuckDevice r (log w) = false /\
  recording (screen w') = None /\
  aiResponse (screen w') = Js.Str "Listening..." /\
  in_flight (log w') = 0.
Proof.
  cbv zeta. split; [reflexivity|]. split; [reflexivity|].
  pose proof (stopRecording_when_stop_throws stuckDevice
                (screen (world (run stuckDevice [PressIn])))
                (world (run stuckDevice [PressIn]))
                {| rec_id := 2; rec_uri := Some "file:///a.wav" |}
                eq_refl eq_refl) as H.
  cbv zeta in H. destruct H as [Hlog [_ [Hrec [Hai _]]]].
  split; [exact Hrec|]. split; [rewrite Hai; reflexivity|].
  rewrite Hlog. reflexivity.
Defined.

Lemma stopRecording_log (P : Platform) (render : VoiceState) (sys : Sys) :
  log (snd (stopRecording P render sys)) =
  (log sys ++ stopRecording_events P render sys)%list.
Proof.
  unfold stopRecording_events.
  destruct (recording render) as [r|] eqn:Hr.
  - destruct (stop_resolves P r (log sys)) eqn:Hs.
    + now destruct (stopRecording_resolved P render sys r Hr Hs) as [-> _].
    + now rewrite (stopRecording_rejected P render sys r Hr Hs).
  - rewrite stopRecording_without_recording by assumption.
    cbn. now rewrite app_nil_r.
Qed.

(** C6. In every call of [stopRecording], a request to the server is
    issued only after [stopAndUnloadAsync] on the session's recording
    has resolved: at the moment of the request that recording is no
    longer held, and the artifact sent is the one of that recording. *)
Theorem stopRecording_releases_before_upload :
  forall (P : Platform) (render : VoiceState) (sys : Sys),
  exists added : list Event,
    log (snd (stopRecording P render sys)) = (log sys ++ added)%list /\
    forall (before after : list Event) (uri : Js.Value),
      added = (before ++ EvFetch uri :: after)%list ->
      exists r : Recording,
        recording render = Some r /\
        uri = getURI r /\
        In (EvStopAndUnload r true) before /\
        holds r (log sys ++ before) = false.
Proof.
  intros P render sys. exists (stopRecording_events P render sys).
  split; [apply stopRecording_log|].
  intros before after uri. unfold stopRecording_events.
  destruct (recording render) as [r|].
  - destruct (stop_resolves P r (log sys)).
    + destruct (Js.truthy (getURI r)).
      * destruct before as [|e1 [|e2 before]]; intros H; try discriminate H.
        -- injection H as H1 H2 H3. subst. exists r. repeat split.
           ++ now left.
           ++ apply holds_after_release.
        -- injection H as _ _ H. destruct before; discriminate H.
      * destruct before as [|e1 before]; intros H; try discriminate H.
        injection H as _ H. destruct before; discriminate H.
    + destruct before as [|e1 [|e2 before]]; intros H; try discriminate H.
      injection H as _ _ H. destruct before; discriminate H.
  - destruct before; intros H; discriminate H.
Qed.

(** A press and a release on a working device: the stop resolves, then
    the request goes out. *)
Example press_release_on_working_device :
  let r := {| rec_id := 2; rec_uri := Some "file:///cache/recording.wav" |} in
  log (world (run workingDevice [PressIn; PressOut])) =
    [EvRequestPermissions "granted"; EvSetAudioMode true; EvCreate (Some r);
     EvStopAndUnload r true; EvFetch (Js.Str "file:///cache/recording.wav")].
Proof. reflexivity. Qed.

(** ** startRecording *)

(** C3, as amended. A start request received while an upload is being
    processed ([isProcessing]) is a no-op: the state cells, the held
    recording and the log are unchanged and no recording is created. *)
Theorem startRecording_while_processing_is_noop :
  forall (P : Platform) (render : VoiceState) (sys : Sys),
    isProcessing render = true ->
    startRecording P render sys = (Returned tt, sys).
Proof. intros P render sys H. unfold startRecording. now rewrite H. Qed.

Lemma startRecording_while_processing_is_noop_witness :
  let w := world (run workingDevice [PressIn; PressOut]) in
  isProcessing (screen w) = true /\
  startRecording workingDevice (screen w) w = (Returned tt, w).
Proof.
  intros w. split; [reflexivity|].
  apply (startRecording_while_processing_is_noop workingDevice (screen w) w).
  reflexivity.
Defined.

(** What a start request does to a recording that is held while no
    upload is being processed: it is stopped first. *)
Lemma startRecording_stops_held_recording
  (P : Platform) (render : VoiceState) (sys : Sys) (r : Recording) :
  isProcessing render = false ->
  recording render = Some r ->
  exists rest : list Event,
    log (snd (startRecording P render sys)) =
    (log sys ++ EvStopAndUnload r (stop_resolves P r (log sys)) :: rest)%list.
Proof.
  intros Hp Hr. js_run. rewrite Hp, Hr. cbn.
  destruct (stop_resolves P r (log sys)); cbn.
  - destruct (set_mode_resolves P _); cbn;
      destruct (create_result P _); cbn;
      rewrite <- ?app_assoc; cbn; eexists; reflexivity.
  - destruct (create_result P _); cbn;
      rewrite <- ?app_assoc; cbn; eexists; reflexivity.
Qed.

(** C3, as stated, fails: a start request while Recording stops the
    held recording and creates another one. *)
Lemma startRecording_while_recording_is_not_noop :
  let w := world (run workingDevice [PressIn]) in
  let w' := snd (startRecording workingDevice (screen w) w) in
  ~ Idle (screen w) /\
  isRecording (screen w) = true /\
  recording (screen w) = Some {| rec_id := 2; rec_uri := Some "file:///cache/recording.wav" |} /\
  recording (screen w') = Some {| rec_id := 5; rec_uri := Some "file:///cache/recording.wav" |} /\
  held (log w) = [{| rec_id := 2; rec_uri := Some "file:///cache/recording.wav" |}] /\
  held (log w') = [{| rec_id := 5; rec_uri := Some "file:///cache/recording.wav" |}] /\
  w' <> w.
Proof.
  cbv zeta. repeat split; try reflexivity.
  - intros [H _]. discriminate H.
  - intros H. apply (f_equal (fun x => List.length (log x))) in H.
    vm_compute in H. discriminate H.
Qed.

Lemma startRecording_frame (P : Platform) (render : VoiceState) (sys : Sys) :
  in_flight (log (snd (startRecording P render sys))) = in_flight (log sys) /\
  isProcessing (screen (snd (startRecording P render sys))) = isProcessing (screen sys).
Proof.
  js_run. destruct (isProcessing render); [now split|].
  destruct (recording render) as [r|]; cbn;
    [destruct (stop_resolves P r (log sys)); cbn|];
    repeat match goal with
      | |- context [set_mode_resolves P ?l] => destruct (set_mode_resolves P l); cbn
      | |- context [create_result P ?l] => destruct (create_result P l); cbn
      end;
    rewrite ?in_flight_snoc; now split.
Qed.

(** ** Unmount *)

Lemma mountRender_step (P : Platform) (actions : list Action) (i : Instance) :
  mountRender (fold_left (step P) actions i) = mountRender i.
Proof.
  revert i. induction actions as [|a actions IH]; intros i; [reflexivity|].
  cbn [fold_left]. now rewrite IH.
Qed.

(** The cleanup kept from the first render sees [recording = null]
    whatever has happened since. *)
Lemma mountRender_run (P : Platform) (actions : list Action) :
  mountRender (run P actions) = initialState.
Proof. unfold run. now rewrite mountRender_step. Qed.

(** So unmounting makes no call at all, after any history. *)
Lemma forceTeardown_calls_nothing (P : Platform) (actions : list Action) :
  forceTeardown P (run P actions) = run P actions.
Proof.
  unfold forceTeardown. pose proof (mountRender_run P actions) as H.
  destruct (run P actions) as [w m]. cbn in *. now subst m.
Qed.

Lemma forceTeardown_idempotent (P : Platform) (actions : list Action) :
  forceTeardown P (forceTeardown P (run P actions)) = forceTeardown P (run P actions).
Proof. now rewrite !forceTeardown_calls_nothing. Qed.

(** Had the cleanup seen the live cell, it would have stopped the
    recording: that is what it is written to do. *)
Lemma effectCleanup_on_live_recording (P : Platform) (render : VoiceState) (sys : Sys)
  (r : Recording) :
  recording render = Some r ->
  log (snd (effectCleanup P render sys)) =
  (log sys ++ [EvStopAndUnload r (stop_resolves P r (log sys))])%list.
Proof. intros H. js_run. now rewrite H. Qed.

(** C1 fails on the code. Unmounting while a recording is held: the
    cleanup of the mount effect closes over the first render, where
    [recording] is [null], so it makes no call and the recording
    created by the press stays held. *)
Theorem unmount_while_recording_keeps_microphone_held :
  let r := {| rec_id := 2; rec_uri := Some "file:///cache/recording.wav" |} in
  let i := run workingDevice [PressIn] in
  recording (screen (world i)) = Some r /\
  held (log (world i)) = [r] /\
  log (world (forceTeardown workingDevice i)) = log (world i) /\
  held (log (world (forceTeardown workingDevice i))) = [r] /\
  holds r (log (world (forceTeardown workingDevice i))) = true.
Proof. cbv zeta. repeat split. Qed.

(** ** At most one upload in flight *)

Lemma uploadAudio_settle_frame (o : FetchOutcome) (sys : Sys) :
  in_flight (log (snd (uploadAudio_settle o sys))) = Nat.pred (in_flight (log sys)) /\
  isProcessing (screen (snd (uploadAudio_settle o sys))) = false /\
  recording (screen (snd (uploadAudio_settle o sys))) = recording (screen sys) /\
  isRecording (screen (snd (uploadAudio_settle o sys))) = isRecording (screen sys).
Proof.
  js_run.
  destruct o as [|ok [data|]]; cbn; rewrite ?in_flight_snoc; cbn; auto.
  destruct ok; cbn;
    repeat (match goal with
            | |- context [match Js.get ?d ?k with _ => _ end] => destruct (Js.get d k)
            | |- context [if Js.truthy ?v then _ else _] => destruct (Js.truthy v)
            | |- context [match Js.to_string ?v with _ => _ end] => destruct (Js.to_string v)
            | |- context [if ?b then _ else _] => destruct b
            end; cbn);
    rewrite ?in_flight_snoc; cbn; auto.
Qed.

Lemma one_upload_mount (P : Platform) : one_upload (world (mount P)).
Proof.
  left. unfold mount. js_run.
  destruct (String.eqb (permission_status P) "granted"); cbn; now split.
Qed.

Lemma one_upload_step (P : Platform) (i : Instance) (a : Action) :
  one_upload (world i) -> one_upload (world (step P i a)).
Proof.
  intros Inv. destruct a as [| |o]; cbn [step world].
  - destruct (startRecording_frame P (screen (world i)) (world i)) as [Hf Hp].
    destruct Inv as [[H0 H1]|[H0 [H1 H2]]].
    + left. now rewrite Hf, Hp.
    + rewrite startRecording_skipped by assumption.
      right. now repeat split.
  - destruct (recording (screen (world i))) as [r|] eqn:Hr.
    + destruct Inv as [[H0 H1]|[_ [_ H2]]]; [|congruence].
      unfold one_upload.
      rewrite stopRecording_log. unfold stopRecording_events. rewrite Hr.
      destruct (stop_resolves P r (log (world i))) eqn:Hs.
      * destruct (stopRecording_resolved P _ _ r Hr Hs) as [_ [Hrec [_ Hpr]]].
        destruct (Js.truthy (getURI r)).
        -- right. rewrite Hrec, Hpr.
           change (log (world i) ++ [EvStopAndUnload r true; EvFetch (getURI r)])%list
             with (log (world i) ++ [EvStopAndUnload r true] ++ [EvFetch (getURI r)])%list.
           rewrite app_assoc, !in_flight_snoc, H0. now repeat split.
        -- left. rewrite Hpr, in_flight_snoc, H0, H1. now split.
      * rewrite (stopRecording_rejected P _ _ r Hr Hs). cbn [snd screen log isProcessing].
        left.
        change (log (world i) ++ [EvStopAndUnload r false; EvConsole ConsoleError "Stop error:"])%list
          with (log (world i) ++ [EvStopAndUnload r false] ++ [EvConsole ConsoleError "Stop error:"])%list.
        rewrite app_assoc, !in_flight_snoc. now split.
    + now rewrite stopRecording_without_recording.
  - destruct (Nat.ltb 0 (in_flight (log (world i)))) eqn:Hlt; [|exact Inv].
    destruct (uploadAudio_settle_frame o (world i)) as [Hf [Hp _]].
    destruct Inv as [[H0 _]|[H0 _]].
    + rewrite H0 in Hlt. discriminate Hlt.
    + left. now rewrite Hf, Hp, H0.
Qed.

Lemma one_upload_run (P : Platform) (actions : list Action) :
  one_upload (world (run P actions)).
Proof.
  unfold run. generalize (one_upload_mount P). generalize (mount P).
  induction actions as [|a actions IH]; intros i Hi; [exact Hi|].
  cbn [fold_left]. apply IH. now apply one_upload_step.
Qed.

(** [uploadAudio] has no guard of its own; the guard is on the
    gestures.  With handlers run one at a time, after any sequence of
    presses, releases and request endings at most one request is in
    flight, and while the screen is processing a press and a release
    change nothing. *)
Theorem at_most_one_upload_in_flight :
  forall (P : Platform) (actions : list Action),
    let i := run P actions in
    in_flight (log (world i)) <= 1 /\
    (isProcessing (screen (world i)) = false \/
     (in_flight (log (world i)) = 1 /\
      world (step P i PressIn) = world i /\
      world (step P i PressOut) = world i)).
Proof.
  intros P actions i.
  destruct (one_upload_run P actions) as [[H0 H1]|[H0 [H1 H2]]]; fold i in H0, H1.
  - split; [lia|now left].
  - fold i in H2. split; [lia|]. right. split; [assumption|]. cbn [step world]. split.
    + now rewrite startRecording_skipped.
    + now rewrite stopRecording_without_recording.
Qed.

(** Called while a request is pending, [uploadAudio] issues a second
    one. *)
Lemma uploadAudio_while_pending_issues_second_request :
  let w := world (run workingDevice [PressIn; PressOut]) in
  let w' := snd (uploadAudio_issue (Js.Str "file:///cache/other.wav") w) in
  isProcessing (screen w) = true /\
  in_flight (log w) = 1 /\
  in_flight (log w') = 2 /\
  w' <> w.
Proof.
  cbv zeta. repeat split.
  intros H. apply (f_equal (fun x => in_flight (log x))) in H.
  vm_compute in H. discriminate H.
Qed.

(** ** The response mapping of uploadAudio *)

Lemma get_field (data : Js.Value) (k : string) :
  nullish data = false -> Js.get data k = Some (field data k).
Proof.
  unfold field. destruct data; cbn; intros H; try discriminate H; try reflexivity.
  now destruct (Js.lookup k fields).
Qed.

Lemma get_nullish (data : Js.Value) (k : string) :
  nullish data = true -> Js.get data k = None.
Proof. destruct data; cbn; intros H; try discriminate H; reflexivity. Qed.

(** The screen after a response with status 2xx and a readable body
    whose transcription line can be built. *)
Lemma uploadAudio_settle_ok (data : Js.Value) (shown : string) (sys : Sys) :
  nullish data = false ->
  transcription_text data = Some shown ->
  uploadAudio_settle (HttpResponse true (Some data)) sys =
  (Returned tt,
   {| screen :=
        {| recording := recording (screen sys);
           isRecording := isRecording (screen sys);
           isProcessing := false;
           aiResponse := Js.or (field data "response") (Js.Str "No response");
           transcription := shown;
           decision :=
             if all_four_truthy data then Some (decision_of data)
             else decision (screen sys) |};
      log := (log sys ++ [EvFetchSettled])%list |}).
Proof.
  intros H Ht. unfold transcription_text in Ht. js_run.
  rewrite !(get_field data) by assumption. cbn.
  unfold all_four_truthy, decision_of, quoted in *.
  destruct (Js.truthy (field data "transcription")).
  - destruct (Js.to_string (field data "transcription")) as [text|];
      [|discriminate Ht]. injection Ht as <-. cbn.
    destruct (Js.truthy (field data "intent") && Js.truthy (field data "item")
              && Js.truthy (field data "qty") && Js.truthy (field data "unit"));
      reflexivity.
  - injection Ht as <-. cbn.
    destruct (Js.truthy (field data "intent") && Js.truthy (field data "item")
              && Js.truthy (field data "qty") && Js.truthy (field data "unit"));
      reflexivity.
Qed.

(** The screen after a response with another status and a readable body
    whose error text can be built. *)
Lemma uploadAudio_settle_not_ok (data : Js.Value) (text : string) (sys : Sys) :
  nullish data = false ->
  error_text data = Some text ->
  uploadAudio_settle (HttpResponse false (Some data)) sys =
  (Returned tt,
   {| screen :=
        {| recording := recording (screen sys);
           isRecording := isRecording (screen sys);
           isProcessing := false;
           aiResponse := Js.Str text;
           transcription := transcription (screen sys);
           decision := decision (screen sys) |};
      log := (log sys ++ [EvFetchSettled])%list |}).
Proof.
  intros H Ht. unfold error_text in Ht. js_run.
  rewrite !(get_field data) by assumption. cbn.
  destruct (Js.to_string (Js.or (field data "error") (Js.Str "Unknown error")))
    as [message|]; [|discriminate Ht].
  injection Ht as <-. reflexivity.
Qed.

(** Everything that throws inside the [try] ends in the one [catch]. *)
Lemma uploadAudio_settle_caught (o : FetchOutcome) (sys : Sys) :
  settle_throws o = true ->
  uploadAudio_settle o sys =
  (Returned tt,
   {| screen :=
        {| recording := recording (screen sys);
           isRecording := isRecording (screen sys);
           isProcessing := false;
           aiResponse := Js.Str "❌ Could not connect to server.";
           transcription := transcription (screen sys);
           decision := decision (screen sys) |};
      log := (log sys ++ [EvFetchSettled; EvConsole ConsoleError "Upload failed:"])%list |}).
Proof.
  destruct o as [|ok [data|]]; cbn [settle_throws]; intros H; js_run;
    rewrite <- ?app_assoc; try reflexivity.
  destruct (nullish data) eqn:Hn.
  - destruct ok; rewrite (get_nullish data) by assumption; cbn;
      rewrite <- ?app_assoc; reflexivity.
  - cbn in H. destruct ok; rewrite !(get_field data) by assumption; cbn.
    + unfold transcription_text in H.
      destruct (Js.truthy (field data "transcription")); [|discriminate H].
      destruct (Js.to_string (field data "transcription")); [discriminate H|].
      cbn. rewrite <- ?app_assoc. reflexivity.
    + unfold error_text in H.
      destruct (Js.to_string (Js.or (field data "error") (Js.Str "Unknown error")));
        [discriminate H|].
      cbn. rewrite <- ?app_assoc. reflexivity.
Qed.

Lemma unreadable_throws (o : FetchOutcome) :
  unreadable o = true -> settle_throws o = true.
Proof.
  destruct o as [|ok [data|]]; cbn; intros H; try reflexivity. now rewrite H.
Qed.

Lemma uploadAudio_settle_unreadable (o : FetchOutcome) (sys : Sys) :
  unreadable o = true ->
  uploadAudio_settle o sys =
  (Returned tt,
   {| screen :=
        {| recording := recording (screen sys);
           isRecording := isRecording (screen sys);
           isProcessing := false;
           aiResponse := Js.Str "❌ Could not connect to server.";
           transcription := transcription (screen sys);
           decision := decision (screen sys) |};
      log := (log sys ++ [EvFetchSettled; EvConsole ConsoleError "Upload failed:"])%list |}).
Proof. intros H. apply uploadAudio_settle_caught. now apply unreadable_throws. Qed.

(** The three ways a request settles. *)
Lemma settle_cases (o : FetchOutcome) :
  settle_throws o = true \/
  (exists data shown, o = HttpResponse true (Some data) /\
     nullish data = false /\ transcription_text data = Some shown) \/
  (exists data text, o = HttpResponse false (Some data) /\
     nullish data = false /\ error_text data = Some text).
Proof.
  destruct o as [|ok [data|]]; cbn; try (now left).
  destruct (nullish data) eqn:Hn; cbn; [now left|]. destruct ok.
  - destruct (transcription_text data) as [shown|] eqn:Ht; cbn; [|now left].
    right. left. now exists data, shown.
  - destruct (error_text data) as [text|] eqn:Ht; cbn; [|now left].
    right. right. now exists data, text.
Qed.

Lemma uploadAudio_with_uri (o : FetchOutcome) (uri : Js.Value) (sys : Sys) :
  Js.truthy uri = true ->
  uploadAudio o uri sys =
  uploadAudio_settle o
    {| screen :=
         {| recording := recording (screen sys);
            isRecording := isRecording (screen sys);
            isProcessing := true;
            aiResponse := Js.Str "Processing...";
            transcription := transcription (screen sys);
            decision := None |};
       log := (log sys ++ [EvFetch uri])%list |}.
Proof. intros H. unfold uploadAudio, uploadAudio_issue. rewrite H. reflexivity. Qed.

Lemma decision_after_success (body uri : Js.Value) (sys : Sys) :
  Js.truthy uri = true ->
  decision (screen (snd (uploadAudio (HttpResponse true (Some body)) uri sys))) =
  (if all_four_truthy body && negb (is_none (transcription_text body))
   then Some (decision_of body) else None).
Proof.
  intros Huri. rewrite uploadAudio_with_uri by assumption.
  destruct (nullish body) eqn:Hn.
  - rewrite uploadAudio_settle_unreadable by exact Hn. cbn.
    unfold all_four_truthy, field. now rewrite !(get_nullish body) by assumption.
  - destruct (transcription_text body) as [shown|] eqn:Ht.
    + rewrite (uploadAudio_settle_ok body shown) by assumption. cbn.
      now rewrite andb_true_r.
    + rewrite uploadAudio_settle_caught by (cbn; now rewrite Hn, Ht). cbn.
      now rewrite andb_false_r.
Qed.




(** A field that is missing or null is not truthy: partial data never
    makes a decision. *)
Lemma missing_field_gives_no_decision (body uri : Js.Value) (sys : Sys) :
  Js.truthy uri = true ->
  all_four_present body = false ->
  decision (screen (snd (uploadAudio (HttpResponse true (Some body)) uri sys))) = None.
Proof.
  intros Huri Hmiss.
  rewrite (decision_after_success body uri sys Huri).
  assert (Hk : forall k, Js.truthy (field body k) = true -> present_non_null body k = true).
  { intros k. unfold field, present_non_null.
    destruct body; cbn; try discriminate.
    destruct (Js.lookup k fields) as [v|]; cbn; [|discriminate].
    destruct v; cbn; congruence. }
  destruct (all_four_truthy body) eqn:E; [|reflexivity].
  unfold all_four_truthy in E. unfold all_four_present in Hmiss.
  apply andb_prop in E as [E E4]. apply andb_prop in E as [E E3].
  apply andb_prop in E as [E1 E2].
  rewrite (Hk _ E1), (Hk _ E2), (Hk _ E3), (Hk _ E4) in Hmiss. discriminate Hmiss.
Qed.

(** C7, as amended. After an upload answered with a 2xx status and a
    well-formed body (response a string; transcription a string, or
    absent or null), the response text is the body's response
    unchanged when it is not empty (and "No response" when it is), and
    the transcription shown is the body's transcription enclosed in
    double quotes when it is there and not empty, and a dash when it
    is absent, null or empty. *)
Theorem success_texts_from_body :
  forall (body uri : Js.Value) (r : string) (t : option string) (sys : Sys),
    Js.truthy uri = true ->
    Js.get body "response" = Some (Js.Str r) ->
    optional_string (field body "transcription") = Some t ->
    let sys' := snd (uploadAudio (HttpResponse true (Some body)) uri sys) in
    aiResponse (screen sys') =
      Js.Str (if String.eqb r EmptyString then "No response" else r)
    /\ transcription (screen sys') =
      match t with
      | Some text => if String.eqb text EmptyString then "—" else quoted text
      | None => "—"
      end.
Proof.
  intros body uri r t sys Huri Hr Ht. cbv zeta.
  assert (Hn : nullish body = false).
  { destruct body; try reflexivity; discriminate Hr. }
  assert (Hshown : transcription_text body =
                   Some match t with
                        | Some text => if String.eqb text EmptyString then "—"
                                       else quoted text
                        | None => "—"
                        end).
  { unfold transcription_text.
    destruct (field body "transcription"); cbn in Ht; try discriminate Ht;
      injection Ht as <-; cbn; try reflexivity.
    now destruct (String.eqb s EmptyString). }
  rewrite uploadAudio_with_uri by assumption.
  rewrite (uploadAudio_settle_ok body _ _ Hn Hshown).
  cbn [snd screen aiResponse transcription]. split; [|reflexivity].
  unfold field. rewrite Hr. unfold Js.or. cbn [Js.truthy].
  now destruct (String.eqb r EmptyString).
Qed.

Lemma success_texts_from_body_witness :
  let sys' := snd (uploadAudio (HttpResponse true (Some riceBody))
                     (Js.Str "file:///a.wav")
                     {| screen := initialState; log := [] |}) in
  Js.get riceBody "response" = Some (Js.Str "Added 5 kg Rice") /\
  optional_string (field riceBody "transcription") = Some None /\
  aiResponse (screen sys') = Js.Str "Added 5 kg Rice" /\
  transcription (screen sys') = "—".
Proof.
  cbv zeta. split; [reflexivity|]. split; [reflexivity|].
  apply (success_texts_from_body riceBody (Js.Str "file:///a.wav")
           "Added 5 kg Rice" None {| screen := initialState; log := [] |});
    reflexivity.
Defined.

(** The same with a transcription in the body. *)
Example success_texts_with_transcription :
  let sys' := snd (uploadAudio (HttpResponse true (Some riceBodyWithTranscription))
                     (Js.Str "file:///a.wav")
                     {| screen := initialState; log := [] |}) in
  aiResponse (screen sys') = Js.Str "Added 5 kg Rice" /\
  transcription (screen sys') = quoted "add five kilos of rice".
Proof. split; reflexivity. Qed.

(** C7, as stated, fails: the transcription shown is not the body's
    transcription but that text between double quotes. *)
Lemma transcription_is_not_verbatim :
  let sys' := snd (uploadAudio (HttpResponse true (Some riceBodyWithTranscription))
                     (Js.Str "file:///a.wav")
                     {| screen := initialState; log := [] |}) in
  Js.get riceBodyWithTranscription "transcription" = Some (Js.Str "add five kilos of rice") /\
  Js.get riceBodyWithTranscription "response" = Some (Js.Str "Added 5 kg Rice") /\
  aiResponse (screen sys') = Js.Str "Added 5 kg Rice" /\
  transcription (screen sys') <> "add five kilos of rice" /\
  String.length (transcription (screen sys')) =
    2 + String.length "add five kilos of rice".
Proof.
  cbv zeta. repeat split. intros H. vm_compute in H. discriminate H.
Qed.



(** An error that is an object with a key "toString": the concatenation
    throws and the screen reports a connection failure. *)
Example unprintable_error_is_caught :
  aiResponse (screen (snd (uploadAudio
     (HttpResponse false (Some (Js.Obj [("error", Js.Obj [("toString", Js.Num "1")])])))
     (Js.Str "file:///a.wav") {| screen := initialState; log := [] |}))) =
  Js.Str "❌ Could not connect to server.".
Proof. reflexivity. Qed.


(** ** Microphone permission *)

Lemma mount_log (P : Platform) :
  log (world (mount P)) =
  EvRequestPermissions (permission_status P) ::
    (if String.eqb (permission_status P) "granted" then [] else [permissionNotice]).
Proof.
  unfold mount. js_run.
  now destruct (String.eqb (permission_status P) "granted").
Qed.

(** A start request on a screen without recording, on a device that
    refuses to record. *)
Lemma startRecording_refused (P : Platform) (sys : Sys) :
  (forall l, create_result P l = None) ->
  recording (screen sys) = None ->
  isProcessing (screen sys) = false ->
  startRecording P (screen sys) sys =
  (Returned tt,
   {| screen :=
        {| recording := None;
           isRecording := false;
           isProcessing := false;
           aiResponse := Js.Str "❌ Mic Error. Try again.";
           transcription := transcription (screen sys);
           decision := None |};
      log :=
        (log sys ++
         (if set_mode_resolves P (log sys)
          then [EvSetAudioMode true]
          else [EvSetAudioMode false; EvConsole ConsoleLog "Cleanup warning:"]) ++
         [EvCreate None; EvConsole ConsoleError "Failed to start recording"])%list |}).
Proof.
  intros Hc Hr Hp. js_run. rewrite Hp, Hr. cbn.
  destruct (set_mode_resolves P (log sys)); cbn; rewrite Hc; cbn;
    rewrite <- ?app_assoc, ?Hr, ?Hp; reflexivity.
Qed.

Lemma never_recorded_step (P : Platform) (i : Instance) (a : Action) :
  (forall l, create_result P l = None) ->
  never_recorded (world i) -> never_recorded (world (step P i a)).
Proof.
  intros Hc [Hr [Hp Hf]]. destruct a as [| |o]; cbn [step world].
  - destruct (startRecording_frame P (screen (world i)) (world i)) as [Ef Ep].
    repeat split; [|congruence|congruence].
    now rewrite startRecording_refused.
  - rewrite stopRecording_without_recording by assumption. now repeat split.
  - rewrite Hf. cbn. now repeat split.
Qed.

Lemma never_recorded_run (P : Platform) (actions : list Action) :
  (forall l, create_result P l = None) ->
  never_recorded (world (run P actions)).
Proof.
  intros Hc. unfold run.
  assert (H0 : never_recorded (world (mount P))).
  { unfold never_recorded. rewrite mount_log. unfold mount. js_run.
    destruct (String.eqb (permission_status P) "granted"); now repeat split. }
  revert H0. generalize (mount P).
  induction actions as [|a actions IH]; intros i Hi; [exact Hi|].
  cbn [fold_left]. apply IH. now apply never_recorded_step.
Qed.

(** C5, as amended. When permission is not granted the mount effect
    raises the alert "Permission missing" once and the answer is not
    kept.  The screen does not refuse start requests: each one sets
    the audio mode and calls createAsync, and on a device that rejects
    that call it reports the failure to the console and ends Idle, with
    no recording, showing "❌ Mic Error. Try again." and no decision;
    it raises no permission notice. *)
Theorem start_after_denied_permission :
  forall (P : Platform) (actions : list Action),
    permission_status P <> "granted" ->
    (forall l, create_result P l = None) ->
    let i := run P actions in
    let i' := step P i PressIn in
    log (world (mount P)) =
      [EvRequestPermissions (permission_status P); permissionNotice]
    /\ Idle (screen (world i'))
    /\ held (log (world i')) = held (log (world i))
    /\ aiResponse (screen (world i')) = Js.Str "❌ Mic Error. Try again."
    /\ decision (screen (world i')) = None
    /\ log (world i') =
         (log (world i) ++ mode_events P (log (world i)) ++
          [EvCreate None; EvConsole ConsoleError "Failed to start recording"])%list
    /\ (forall l, log (world i') = (log (world i) ++ l)%list -> ~ In permissionNotice l).
Proof.
  intros P actions Hd Hc i i'. split.
  - rewrite mount_log. apply String.eqb_neq in Hd. now rewrite Hd.
  - destruct (never_recorded_run P actions Hc) as [Hr [Hp _]]. fold i in Hr, Hp.
    unfold i'. cbn [step world].
    rewrite startRecording_refused by assumption.
    cbn [snd screen log recording isRecording isProcessing aiResponse decision].
    split; [now repeat split|]. split.
    { rewrite held_app.
      now destruct (set_mode_resolves P (log (world i))). }
    split; [reflexivity|]. split; [reflexivity|]. split; [reflexivity|].
    intros l Hl. apply app_inv_head in Hl. subst l.
    destruct (set_mode_resolves P (log (world i))); cbn;
      intros H; repeat (destruct H as [H|H]; [discriminate H|]); exact H.
Qed.

Lemma start_after_denied_permission_witness :
  permission_status deniedDevice <> "granted" /\
  Idle (screen (world (step deniedDevice (run deniedDevice [PressIn; PressOut]) PressIn))) /\
  aiResponse (screen (world (step deniedDevice (run deniedDevice [PressIn; PressOut]) PressIn)))
    = Js.Str "❌ Mic Error. Try again.".
Proof.
  assert (Hd : permission_status deniedDevice <> "granted") by (intros H; discriminate H).
  assert (Hc : forall l, create_result deniedDevice l = None) by (intros l; reflexivity).
  split; [exact Hd|].
  pose proof (start_after_denied_permission deniedDevice [PressIn; PressOut] Hd Hc) as H.
  cbv zeta in H. split; [apply H|apply H].
Defined.

(** C5, as stated, fails: after a denied permission a start request
    raises no permission notice; the screen then shows the text of any
    microphone failure, exactly as on a device with permission. *)
Lemma denied_start_shows_no_permission_notice :
  let i := run deniedDevice [] in
  let i' := step deniedDevice i PressIn in
  log (world i') =
    (log (world i) ++ [EvSetAudioMode true; EvCreate None;
                       EvConsole ConsoleError "Failed to start recording"])%list /\
  ~ In permissionNotice [EvSetAudioMode true; EvCreate None;
                         EvConsole ConsoleError "Failed to start recording"] /\
  aiResponse (screen (world i')) = Js.Str "❌ Mic Error. Try again." /\
  screen (world i') = screen (world (step brokenMicDevice (run brokenMicDevice []) PressIn)).
Proof.
  cbv zeta. repeat split.
  intros H. repeat (destruct H as [H|H]; [discriminate H|]). exact H.
Qed.

(** * Further properties of the screen *)

(** ** cleanupAudio and startRecording, call by call *)

Lemma cleanupAudio_spec (P : Platform) (render : VoiceState) (sys : Sys) :
  cleanupAudio P render sys =
  (Returned tt,
   {| screen :=
        match recording render with
        | Some r =>
            if stop_resolves P r (log sys) then without_recording (screen sys)
            else screen sys
        | None => screen sys
        end;
      log := (log sys ++ cleanup_events P render (log sys))%list |}).
Proof.
  unfold cleanup_events, mode_events. js_run.
  destruct (recording render) as [r|]; cbn.
  - destruct (stop_resolves P r (log sys)); cbn.
    + destruct (set_mode_resolves P _); cbn; rewrite <- ?app_assoc; reflexivity.
    + rewrite <- app_assoc. reflexivity.
  - destruct (set_mode_resolves P (log sys)); cbn; rewrite <- ?app_assoc; reflexivity.
Qed.

Lemma startRecording_spec (P : Platform) (render : VoiceState) (sys : Sys) :
  isProcessing render = false ->
  startRecording P render sys =
  (Returned tt,
   let c := snd (cleanupAudio P render sys) in
   match create_result P (log c) with
   | Some r' =>
       {| screen :=
            {| recording := Some r'; isRecording := true;
               isProcessing := isProcessing (screen sys);
               aiResponse := Js.Str "Listening...";
               transcription := transcription (screen sys);
               decision := None |};
          log := (log c ++ [EvCreate (Some r')])%list |}
   | None =>
       {| screen :=
            {| recording := recording (screen c); isRecording := false;
               isProcessing := isProcessing (screen sys);
               aiResponse := Js.Str "❌ Mic Error. Try again.";
               transcription := transcription (screen sys);
               decision := None |};
          log := (log c ++ [EvCreate None;
                            EvConsole ConsoleError "Failed to start recording"])%list |}
   end).
Proof.
  intros Hp. unfold startRecording. rewrite Hp. unfold try_catch, bind.
  rewrite cleanupAudio_spec. cbn [snd].
  set (c := {| screen := _; log := _ |}).
  assert (Hc : isProcessing (screen c) = isProcessing (screen sys)
               /\ transcription (screen c) = transcription (screen sys)).
  { unfold c. cbn. destruct (recording render) as [r|]; [|now split].
    destruct (stop_resolves P r (log sys)); now split. }
  destruct Hc as [Hc1 Hc2]. clearbody c.
  js_run. destruct (create_result P (log c)); cbn;
    rewrite <- ?app_assoc, ?Hc1, ?Hc2; reflexivity.
Qed.

(** X1. [cleanupAudio] never throws, whatever the device does.  The
    calls it makes are the stop of the render's recording, if it has
    one, then the audio mode; when either rejects, the warning is
    logged to the console and nothing more is called.  It calls
    neither createAsync nor fetch.  It writes no cell but [recording],
    which it resets exactly when the render held a recording and its
    stop resolved. *)
Theorem cleanupAudio_never_throws :
  forall (P : Platform) (render : VoiceState) (sys : Sys),
    let sys' := snd (cleanupAudio P render sys) in
    let warning := EvConsole ConsoleLog "Cleanup warning:" in
    fst (cleanupAudio P render sys) = Returned tt
    /\ isRecording (screen sys') = isRecording (screen sys)
    /\ isProcessing (screen sys') = isProcessing (screen sys)
    /\ aiResponse (screen sys') = aiResponse (screen sys)
    /\ transcription (screen sys') = transcription (screen sys)
    /\ decision (screen sys') = decision (screen sys)
    /\ recording (screen sys') =
         match recording render with
         | Some r => if stop_resolves P r (log sys) then None
                     else recording (screen sys)
         | None => recording (screen sys)
         end
    /\ exists added : list Event,
         log sys' = (log sys ++ added)%list
         /\ (forall result, ~ In (EvCreate result) added)
         /\ (forall uri, ~ In (EvFetch uri) added)
         /\ ~ In EvFetchSettled added
         /\ added =
              match recording render with
              | Some r =>
                  if stop_resolves P r (log sys)
                  then let l := (log sys ++ [EvStopAndUnload r true])%list in
                       if set_mode_resolves P l
                       then [EvStopAndUnload r true; EvSetAudioMode true]
                       else [EvStopAndUnload r true; EvSetAudioMode false; warning]
                  else [EvStopAndUnload r false; warning]
              | None =>
                  if set_mode_resolves P (log sys) then [EvSetAudioMode true]
                  else [EvSetAudioMode false; warning]
              end.
Proof.
  intros P render sys. cbv zeta. rewrite cleanupAudio_spec. cbn [fst snd screen log].
  split; [reflexivity|].
  assert (Hcells :
    forall s', s' = match recording render with
                    | Some r => if stop_resolves P r (log sys)
                                then without_recording (screen sys) else screen sys
                    | None => screen sys
                    end ->
    isRecording s' = isRecording (screen sys)
    /\ isProcessing s' = isProcessing (screen sys)
    /\ aiResponse s' = aiResponse (screen sys)
    /\ transcription s' = transcription (screen sys)
    /\ decision s' = decision (screen sys)
    /\ recording s' =
         match recording render with
         | Some r => if stop_resolves P r (log sys) then None
                     else recording (screen sys)
         | None => recording (screen sys)
         end).
  { intros s' ->. destruct (recording render) as [r|];
      [destruct (stop_resolves P r (log sys))|]; now repeat split. }
  destruct (Hcells _ eq_refl) as [H1 [H2 [H3 [H4 [H5 H6]]]]].
  repeat (split; [assumption|]).
  exists (cleanup_events P render (log sys)). split; [reflexivity|].
  unfold cleanup_events, mode_events.
  destruct (recording render) as [r|];
    [destruct (stop_resolves P r (log sys))|];
    repeat match goal with
      | |- context [set_mode_resolves P ?l] => destruct (set_mode_resolves P l)
      end;
    cbn; repeat split;
    try (intros result H; repeat (destruct H as [H|H]; [discriminate H|]); exact H);
    try (intros H; repeat (destruct H as [H|H]; [discriminate H|]); exact H).
Qed.



(** ** The shapes of the screen between handlers *)

Lemma recording_flag_step (P : Platform) (i : Instance) (a : Action) :
  (isRecording (screen (world i)) = true -> recording (screen (world i)) <> None) ->
  isRecording (screen (world (step P i a))) = true ->
  recording (screen (world (step P i a))) <> None.
Proof.
  intros J. destruct a as [| |o]; cbn [step world].
  - destruct (isProcessing (screen (world i))) eqn:Hp.
    + now rewrite startRecording_skipped.
    + rewrite startRecording_spec by assumption. cbn [snd]. cbv zeta.
      destruct (create_result P _); cbn; intros H; congruence.
  - destruct (recording (screen (world i))) as [r|] eqn:Hr.
    + destruct (stop_resolves P r (log (world i))) eqn:Hs.
      * destruct (stopRecording_resolved P _ _ r Hr Hs) as [_ [_ [Hi _]]]. intros H. congruence.
      * rewrite (stopRecording_rejected P _ _ r Hr Hs). cbn. intros H. discriminate H.
    + rewrite stopRecording_without_recording by assumption. intros H. apply J in H. congruence.
  - destruct (Nat.ltb 0 (in_flight (log (world i)))); [|exact J].
    destruct (uploadAudio_settle_frame o (world i)) as [_ [_ [Hrec Hrc]]].
    rewrite Hrec, Hrc. exact J.
Qed.

Lemma well_shaped_split (sys : Sys) :
  well_shaped sys <->
  one_upload sys /\
  (isRecording (screen sys) = true -> recording (screen sys) <> None).
Proof.
  unfold well_shaped, one_upload. split.
  - intros [[H1 [H2 H3]]|[H1 [H2 [H3 H4]]]].
    + split; [now left|exact H3].
    + split; [right; now repeat split|congruence].
  - intros [[[H1 H2]|[H1 [H2 H3]]] J].
    + left. now repeat split.
    + right. repeat split; try assumption.
      destruct (isRecording (screen sys)); [|reflexivity].
      now destruct (J eq_refl).
Qed.

Lemma well_shaped_step (P : Platform) (i : Instance) (a : Action) :
  well_shaped (world i) -> well_shaped (world (step P i a)).
Proof.
  rewrite !well_shaped_split. intros [H J]. split.
  - now apply one_upload_step.
  - now apply recording_flag_step.
Qed.

Lemma well_shaped_fold (P : Platform) (actions : list Action) (i : Instance) :
  well_shaped (world i) -> well_shaped (world (fold_left (step P) actions i)).
Proof.
  revert i. induction actions as [|a actions IH]; intros i Hi; [exact Hi|].
  cbn [fold_left]. apply IH. now apply well_shaped_step.
Qed.

Lemma well_shaped_run (P : Platform) (actions : list Action) :
  well_shaped (world (run P actions)).
Proof.
  apply well_shaped_fold. apply well_shaped_split. split.
  - apply one_upload_mount.
  - unfold mount. js_run.
    destruct (String.eqb (permission_status P) "granted"); cbn; discriminate.
Qed.

(** X3. On every device and after every sequence of presses, releases
    and request endings, the screen is in one of two shapes: not
    processing with no request in flight, where isRecording is set
    only while the cell holds a recording; or processing exactly one
    request, with isRecording false and no recording in the cell.  In
    particular isRecording and isProcessing are never set together. *)
Theorem screen_is_well_shaped :
  forall (P : Platform) (actions : list Action),
    let s := screen (world (run P actions)) in
    well_shaped (world (run P actions)) /\
    (isRecording s && isProcessing s = false) /\
    (isProcessing s = true <-> in_flight (log (world (run P actions))) = 1).
Proof.
  intros P actions. cbv zeta.
  pose proof (well_shaped_run P actions) as H. split; [exact H|].
  destruct H as [[H1 [H2 _]]|[H1 [H2 [_ H4]]]]; rewrite H1, H2.
  - rewrite andb_false_r. repeat split; intros H; discriminate H.
  - rewrite H4. now repeat split.
Qed.

(** After a press followed by a release nothing is recorded. *)
Lemma press_release_clears_recording (P : Platform) (i : Instance) :
  well_shaped (world i) ->
  let i2 := step P (step P i PressIn) PressOut in
  recording (screen (world i2)) = None /\ isRecording (screen (world i2)) = false.
Proof.
  intros Hw. cbv zeta.
  pose proof (well_shaped_step P i PressIn Hw) as Hw1.
  set (i1 := step P i PressIn) in *. clearbody i1.
  cbn [step world].
  destruct (recording (screen (world i1))) as [r|] eqn:Hr.
  - destruct (stop_resolves P r (log (world i1))) eqn:Hs.
    + destruct (stopRecording_resolved P _ _ r Hr Hs) as [_ [H1 [H2 _]]]. now split.
    + rewrite (stopRecording_rejected P _ _ r Hr Hs). now split.
  - rewrite stopRecording_without_recording by assumption. cbn [snd].
    split; [exact Hr|].
    destruct Hw1 as [[_ [_ J]]|[_ [_ [_ H]]]]; [|exact H].
    destruct (isRecording (screen (world i1))); [|reflexivity].
    now destruct (J eq_refl).
Qed.

Lemma run_app (P : Platform) (actions more : list Action) :
  run P (actions ++ more) = fold_left (step P) more (run P actions).
Proof. unfold run. apply fold_left_app. Qed.

(** X4. With handlers run one at a time: whatever happened before,
    however the device answers and however the request ends, a press
    followed by a release and the end of the request leaves the screen
    Idle: no recording in the cell,
    isRecording and isProcessing false, and no request in flight. *)
Theorem full_cycle_returns_to_idle :
  forall (P : Platform) (actions : list Action) (o : FetchOutcome),
    let w := world (run P (actions ++ [PressIn; PressOut; FetchEnds o])) in
    Idle (screen w) /\ in_flight (log w) = 0.
Proof.
  intros P actions o. cbv zeta. rewrite run_app. cbn [fold_left].
  pose proof (well_shaped_run P actions) as Hw.
  destruct (press_release_clears_recording P (run P actions) Hw) as [Hrec Hrc].
  pose proof (well_shaped_step P _ PressOut (well_shaped_step P _ PressIn Hw)) as Hw2.
  set (i2 := step P (step P (run P actions) PressIn) PressOut) in *. clearbody i2.
  cbn [step world]. unfold Idle.
  destruct Hw2 as [[H1 [H2 _]]|[H1 [H2 _]]]; rewrite H2; cbn.
  - now repeat split.
  - destruct (uploadAudio_settle_frame o (world i2)) as [Hf [Hp [Hr Hi]]].
    rewrite Hf, Hp, Hr, Hi, H2. now repeat split.
Qed.

(** ** The microphone while the screen is mounted *)

Lemma uploadAudio_settle_log (o : FetchOutcome) (sys : Sys) :
  log (snd (uploadAudio_settle o sys)) = (log sys ++ settle_events o)%list.
Proof.
  unfold settle_events.
  destruct (settle_cases o) as [Ht|[[data [shown [-> [Hn Hs]]]]|[data [text [-> [Hn Hs]]]]]].
  - rewrite Ht. now rewrite uploadAudio_settle_caught.
  - rewrite (uploadAudio_settle_ok data shown) by assumption.
    cbn. now rewrite Hn, Hs.
  - rewrite (uploadAudio_settle_not_ok data text) by assumption.
    cbn. now rewrite Hn, Hs.
Qed.

Lemma cleanup_releases (P : Platform) (sys : Sys) :
  (forall r l, stop_resolves P r l = true) ->
  held (log sys) = cell_recordings (screen sys) ->
  held (log sys ++ cleanup_events P (screen sys) (log sys)) = [] /\
  recording (screen (snd (cleanupAudio P (screen sys) sys))) = None.
Proof.
  intros Hstop Hh. rewrite cleanupAudio_spec, held_app, Hh.
  unfold cleanup_events, mode_events, cell_recordings. cbn [snd screen].
  destruct (recording (screen sys)) as [r|] eqn:Hr.
  - rewrite Hstop. split; [|reflexivity].
    destruct (set_mode_resolves P _); cbn; unfold same_recording;
      now rewrite Nat.eqb_refl.
  - split; [|exact Hr]. now destruct (set_mode_resolves P (log sys)).
Qed.

Lemma held_step_inv (P : Platform) (i : Instance) (a : Action) :
  (forall r l, stop_resolves P r l = true) ->
  held (log (world i)) = cell_recordings (screen (world i)) ->
  held (log (world (step P i a))) = cell_recordings (screen (world (step P i a))).
Proof.
  intros Hstop Hh. destruct a as [| |o]; cbn [step world].
  - destruct (isProcessing (screen (world i))) eqn:Hp.
    + now rewrite startRecording_skipped.
    + destruct (cleanup_releases P (world i) Hstop Hh) as [Hc Hrec].
      rewrite startRecording_spec by assumption. cbn [snd]. cbv zeta.
      rewrite Hrec. rewrite cleanupAudio_spec. cbn [snd log].
      destruct (create_result P _) as [r'|]; cbn [log screen];
        rewrite held_app, Hc; reflexivity.
  - destruct (recording (screen (world i))) as [r|] eqn:Hr.
    + pose proof (Hstop r (log (world i))) as Hs.
      destruct (stopRecording_resolved P _ _ r Hr Hs) as [Hlog [Hrec _]].
      rewrite Hlog. unfold cell_recordings at 1. rewrite Hrec.
      rewrite held_app, Hh. unfold cell_recordings. rewrite Hr.
      destruct (Js.truthy (getURI r)); cbn; unfold same_recording;
        now rewrite Nat.eqb_refl.
    + now rewrite stopRecording_without_recording.
  - destruct (Nat.ltb 0 (in_flight (log (world i)))); [|exact Hh].
    destruct (uploadAudio_settle_frame o (world i)) as [_ [_ [Hrec _]]].
    rewrite uploadAudio_settle_log, held_app, Hh.
    unfold cell_recordings. rewrite Hrec. unfold settle_events.
    now destruct (settle_throws o).
Qed.

(** X5. With handlers run one at a time, on a device whose stop calls
    resolve: after every sequence of presses, releases and request
    endings the microphone is held for
    exactly the recording in the cell, and for nothing when the cell is
    empty: while the screen is mounted no recording is lost. *)
Theorem no_recording_lost_while_mounted :
  forall (P : Platform) (actions : list Action),
    (forall r l, stop_resolves P r l = true) ->
    held (log (world (run P actions))) =
    cell_recordings (screen (world (run P actions))).
Proof.
  intros P actions Hstop. unfold run.
  assert (H0 : held (log (world (mount P))) = cell_recordings (screen (world (mount P)))).
  { unfold mount. js_run.
    destruct (String.eqb (permission_status P) "granted"); reflexivity. }
  revert H0. generalize (mount P).
  induction actions as [|a actions IH]; intros i Hi; [exact Hi|].
  cbn [fold_left]. apply IH. now apply held_step_inv.
Qed.

Lemma no_recording_lost_while_mounted_witness :
  (forall r l, stop_resolves workingDevice r l = true) /\
  held (log (world (run workingDevice [PressIn; PressIn]))) =
  [{| rec_id := 5; rec_uri := Some "file:///cache/recording.wav" |}].
Proof.
  assert (H : forall r l, stop_resolves workingDevice r l = true)
    by (intros r l; reflexivity).
  split; [exact H|].
  rewrite (no_recording_lost_while_mounted workingDevice [PressIn; PressIn] H).
  reflexivity.
Defined.

(** ** uploadAudio, whatever the answer *)



Lemma or_truthy (a b : Js.Value) : Js.truthy b = true -> Js.truthy (Js.or a b) = true.
Proof. intros H. unfold Js.or. now destruct (Js.truthy a) eqn:E. Qed.

(** X7. Every call of [uploadAudio] that issues a request completes
    without throwing, whatever the answer, a body whose fields make
    the text conversions throw included: the request is no longer in
    flight, isProcessing is false, the recording cell and isRecording
    are untouched, and the value left in the response cell is truthy
    (not null, undefined, false, 0 or the empty string). *)
Theorem uploadAudio_always_completes :
  forall (o : FetchOutcome) (uri : Js.Value) (sys : Sys),
    Js.truthy uri = true ->
    let result := uploadAudio o uri sys in
    fst result = Returned tt
    /\ in_flight (log (snd result)) = in_flight (log sys)
    /\ isProcessing (screen (snd result)) = false
    /\ recording (screen (snd result)) = recording (screen sys)
    /\ isRecording (screen (snd result)) = isRecording (screen sys)
    /\ Js.truthy (aiResponse (screen (snd result))) = true.
Proof.
  intros o uri sys Huri. cbv zeta. rewrite uploadAudio_with_uri by assumption.
  set (issued := {| screen := _; log := _ |}).
  destruct (uploadAudio_settle_frame o issued) as [Hf [Hp [Hr Hi]]].
  assert (Hlog : in_flight (log issued) = S (in_flight (log sys))).
  { unfold issued. cbn [log]. now rewrite in_flight_snoc. }
  assert (Hres : fst (uploadAudio_settle o issued) = Returned tt /\
                 Js.truthy (aiResponse (screen (snd (uploadAudio_settle o issued)))) = true).
  { destruct (settle_cases o)
      as [Ht|[[data [shown [-> [Hn Hs]]]]|[data [text [-> [Hn Hs]]]]]].
    - now rewrite uploadAudio_settle_caught.
    - rewrite (uploadAudio_settle_ok data shown) by assumption.
      split; [reflexivity|]. cbn [snd screen aiResponse]. now apply or_truthy.
    - rewrite (uploadAudio_settle_not_ok data text) by assumption.
      split; [reflexivity|]. cbn [snd screen aiResponse].
      unfold error_text in Hs.
      destruct (Js.to_string (Js.or (field data "error") (Js.Str "Unknown error")));
        [|discriminate Hs].
      now injection Hs as <-. }
  destruct Hres as [Hret Hai].
  repeat split; try assumption.
  now rewrite Hf, Hlog.
Qed.

Lemma uploadAudio_always_completes_witness :
  let odd := Js.Obj [("error", Js.Obj [("toString", Js.Num "1")])] in
  let result := uploadAudio (HttpResponse false (Some odd)) (Js.Str "file:///a.wav")
                  {| screen := initialState; log := [] |} in
  Js.truthy (Js.Str "file:///a.wav") = true /\
  fst result = Returned tt /\
  isProcessing (screen (snd result)) = false /\
  Js.truthy (aiResponse (screen (snd result))) = true.
Proof.
  cbv zeta. split; [reflexivity|].
  pose proof (uploadAudio_always_completes
                (HttpResponse false (Some (Js.Obj [("error", Js.Obj [("toString", Js.Num "1")])])))
                (Js.Str "file:///a.wav") {| screen := initialState; log := [] |}
                eq_refl) as H.
  cbv zeta in H. destruct H as [H1 [_ [H3 [_ [_ H6]]]]].
  split; [exact H1|]. split; [exact H3|exact H6].
Defined.

(** ** What is drawn, after any history *)

(** X8. With handlers run one at a time: after every sequence of
    presses, releases and request endings, on every device, the
    button is disabled exactly while one request
    is in flight, and then the spinner turns, the headline is
    "Thinking...", the label is "Please Wait..." and the microphone is
    not highlighted; and the label is "Release to Send" only while the
    cell holds a recording, with the microphone highlighted. *)
Theorem view_follows_the_request :
  forall (P : Platform) (actions : list Action),
    let w := world (run P actions) in
    let v := render (screen w) in
    (buttonDisabled v = true <-> in_flight (log w) = 1)
    /\ spinner v = buttonDisabled v
    /\ (buttonDisabled v = true ->
        headline v = Js.Str "Thinking..." /\ buttonLabel v = "Please Wait..."
        /\ micClass v = "bg-purple-50" /\ buttonClass v = "bg-white")
    /\ (buttonLabel v = "Release to Send" ->
        recording (screen w) <> None /\ micClass v = "bg-red-100"
        /\ buttonDisabled v = false).
Proof.
  intros P actions. cbv zeta.
  pose proof (well_shaped_run P actions) as H. unfold render. cbn.
  destruct H as [[H1 [H2 J]]|[H1 [H2 [H3 H4]]]]; rewrite ?H1, ?H2, ?H4.
  - repeat split; try discriminate.
    + destruct (isRecording (screen (world (run P actions)))); [now apply J|discriminate].
    + destruct (isRecording (screen (world (run P actions)))); [reflexivity|discriminate].
  - repeat split; discriminate.
Qed.

(** ** Mounting *)

(** X10. Mounting asks for the permission once and raises the alert
    "Permission missing" exactly when the status is anything but
    "granted"; it writes no cell, holds no recording and issues no
    request. *)
Theorem mount_only_asks_permission :
  forall P : Platform,
    let w := world (mount P) in
    screen w = initialState
    /\ held (log w) = []
    /\ in_flight (log w) = 0
    /\ (In permissionNotice (log w) <-> permission_status P <> "granted")
    /\ log w = EvRequestPermissions (permission_status P) ::
                 (if String.eqb (permission_status P) "granted" then []
                  else [permissionNotice]).
Proof.
  intros P. cbv zeta. rewrite mount_log. unfold mount. js_run.
  destruct (String.eqb (permission_status P) "granted") eqn:E; cbn.
  - apply String.eqb_eq in E.
    split; [reflexivity|]. split; [reflexivity|]. split; [reflexivity|].
    split; [|reflexivity]. split.
    + intros [H|H]; [discriminate H|destruct H].
    + intros H. now destruct H.
  - apply String.eqb_neq in E.
    split; [reflexivity|]. split; [reflexivity|]. split; [reflexivity|].
    split; [|reflexivity]. split.
    + intros _. exact E.
    + intros _. right. now left.
Qed.

(** ** A release without an artifact *)



(** ** The transcription *)

(** X12. The transcription line is written by one thing only, a 2xx
    answer with a readable body: a press, a release, and a request
    that ends in any other way leave it as it was, so the transcription
    of the previous command stays beside a new error text. *)
Theorem transcription_changes_only_on_success :
  forall (P : Platform) (i : Instance) (a : Action),
    (forall data, a <> FetchEnds (HttpResponse true (Some data))) ->
    transcription (screen (world (step P i a))) = transcription (screen (world i)).
Proof.
  intros P i a Ha. destruct a as [| |o]; cbn [step world].
  - destruct (isProcessing (screen (world i))) eqn:Hp.
    + now rewrite startRecording_skipped.
    + rewrite startRecording_spec by assumption. cbn [snd]. cbv zeta.
      now destruct (create_result P _).
  - destruct (recording (screen (world i))) as [r|] eqn:Hr.
    + destruct (stop_resolves P r (log (world i))) eqn:Hs.
      * js_run. rewrite Hr. cbn. rewrite Hs. cbn.
        now destruct (Js.truthy (getURI r)).
      * now rewrite (stopRecording_rejected P _ _ r Hr Hs).
    + now rewrite stopRecording_without_recording.
  - destruct (Nat.ltb 0 (in_flight (log (world i)))); [|reflexivity].
    destruct (settle_cases o)
      as [Ht|[[data [shown [-> _]]]|[data [text [-> [Hn Hs]]]]]].
    + now rewrite uploadAudio_settle_caught.
    + now destruct (Ha data).
    + now rewrite (uploadAudio_settle_not_ok data text).
Qed.

Lemma transcription_changes_only_on_success_witness :
  let i := run workingDevice [PressIn; PressOut;
                              FetchEnds (HttpResponse true (Some riceBodyWithTranscription));
                              PressIn; PressOut] in
  transcription (screen (world (step workingDevice i (FetchEnds NetworkFailure)))) =
    quoted "add five kilos of rice" /\
  aiResponse (screen (world (step workingDevice i (FetchEnds NetworkFailure)))) =
    Js.Str "❌ Could not connect to server.".
Proof.
  cbv zeta. split; [|reflexivity].
  rewrite (transcription_changes_only_on_success workingDevice _ (FetchEnds NetworkFailure)).
  - reflexivity.
  - intros data H. discriminate H.
Defined.

(** ** The root layout *)

Lemma color_of_spread_same (k v : string) (colors : list (string * string)) :
  color_of k (spread_set k v colors) = Some v.
Proof.
  induction colors as [|[k' v'] rest IH]; cbn.
  - now rewrite String.eqb_refl.
  - destruct (String.eqb k k') eqn:E; cbn; now rewrite E.
Qed.

Lemma color_of_spread_other (k k' v : string) (colors : list (string * string)) :
  k <> k' -> color_of k (spread_set k' v colors) = color_of k colors.
Proof.
  intros Hk. induction colors as [|[k2 v2] rest IH]; cbn.
  - apply String.eqb_neq in Hk. now rewrite Hk.
  - destruct (String.eqb k' k2) eqn:E; cbn.
    + apply String.eqb_eq in E. subst k2.
      apply String.eqb_neq in Hk. now rewrite Hk.
    + now rewrite IH.
Qed.

Lemma customTheme_colors (base : Theme) (c k : string) :
  color_of k (theme_colors (customTheme base c)) =
  if String.eqb k "background" || String.eqb k "card" then Some c
  else color_of k (theme_colors base).
Proof.
  unfold customTheme. cbn [theme_colors].
  destruct (String.eqb k "card") eqn:Ec.
  - apply String.eqb_eq in Ec. subst k. rewrite color_of_spread_same.
    now rewrite orb_true_r.
  - apply String.eqb_neq in Ec. rewrite color_of_spread_other by assumption.
    rewrite orb_false_r. destruct (String.eqb k "background") eqn:Eb.
    + apply String.eqb_eq in Eb. subst k. apply color_of_spread_same.
    + apply String.eqb_neq in Eb. now apply color_of_spread_other.
Qed.

(** X9. Whatever the two library themes are: [RootLayout] returns
    nothing exactly when its effect leaves the splash screen up (fonts
    neither loaded nor failed); otherwise the theme it provides has
    background and card "#000000" when the colour scheme is "dark" and
    "#ffffff" for any other scheme, null included, keeps every other
    colour and the dark flag of the library theme, and the status bar
    style is the opposite ("light" on dark, "dark" on light). *)
Theorem rootLayout_theme_and_splash :
  forall (DefaultTheme DarkTheme : Theme) (colorScheme : option string)
         (dev verifyReturns loaded : bool) (error : option string),
    (RootLayout DefaultTheme DarkTheme colorScheme loaded error = None <->
     ~ In EvHideSplash (layoutEffect dev verifyReturns loaded error))
    /\ forall layout,
        RootLayout DefaultTheme DarkTheme colorScheme loaded error = Some layout ->
        let base := if is_dark colorScheme then DarkTheme else DefaultTheme in
        let c := if is_dark colorScheme then "#000000" else "#ffffff" in
        color_of "background" (theme_colors (layoutTheme layout)) = Some c
        /\ color_of "card" (theme_colors (layoutTheme layout)) = Some c
        /\ (forall k, k <> "background" -> k <> "card" ->
              color_of k (theme_colors (layoutTheme layout)) =
              color_of k (theme_colors base))
        /\ theme_dark (layoutTheme layout) = theme_dark base
        /\ statusBarStyle layout = (if is_dark colorScheme then "light" else "dark").
Proof.
  intros DefaultTheme DarkTheme colorScheme dev verifyReturns loaded error. split.
  - unfold RootLayout, layoutEffect.
    assert (Hpre : ~ In EvHideSplash
              (if dev then EvVerifyInstallation verifyReturns ::
                           (if verifyReturns then [] else [EvWarn]) else [])).
    { destruct dev, verifyReturns; cbn; intros H;
        repeat (destruct H as [H|H]; [discriminate H|]); exact H. }
    destruct loaded, (truthy_error error); cbn; split; intros H;
      try discriminate H; try reflexivity.
    + exfalso. apply H. apply in_or_app. right. now left.
    + exfalso. apply H. apply in_or_app. right. now left.
    + exfalso. apply H. apply in_or_app. right. now left.
    + intros Hin. apply in_app_or in Hin. destruct Hin as [Hin|[]]. now apply Hpre.
  - intros layout. unfold RootLayout.
    destruct (negb loaded && negb (truthy_error error)); [discriminate|].
    intros H. injection H as <-. cbn [layoutTheme statusBarStyle].
    unfold CustomDarkTheme, CustomLightTheme.
    destruct (is_dark colorScheme); cbv zeta;
      (split; [now rewrite customTheme_colors|]);
      (split; [now rewrite customTheme_colors|]);
      (split; [|now split]);
      intros k Hb Hc; rewrite customTheme_colors;
      apply String.eqb_neq in Hb; apply String.eqb_neq in Hc; now rewrite Hb, Hc.
Qed.

(** * The handlers interleaved *)

Lemma startRecording_cut (P : Platform) (render : VoiceState) (sys : Sys) :
  startRecording P render sys =
  match startRecording_begin P render sys with
  | (Returned true, sys') => startRecording_resume P sys'
  | (_, sys') => (Returned tt, sys')
  end.
Proof.
  unfold startRecording, startRecording_begin, startRecording_resume.
  destruct (isProcessing render); [reflexivity|].
  unfold try_catch, bind. rewrite cleanupAudio_spec. reflexivity.
Qed.

Lemma stopRecording_cut (P : Platform) (render : VoiceState) (sys : Sys) :
  stopRecording P render sys =
  match stopRecording_begin render sys with
  | (Returned (Some r), sys') => stopRecording_resume P r sys'
  | (_, sys') => (Returned tt, sys')
  end.
Proof.
  unfold stopRecording, stopRecording_begin, stopRecording_resume.
  destruct (recording render); reflexivity.
Qed.

Lemma moment_uninterrupted (P : Platform) (i : Interleaved) (j : Instance) (a : Action) :
  live i = world j -> pendingCreates i = 0 -> pendingStops i = [] ->
  let i' := fold_left (moment P) (uninterrupted a) i in
  live i' = world (step P j a) /\ pendingCreates i' = 0 /\ pendingStops i' = [].
Proof.
  intros Hl Hc Hs. destruct i as [w c stops]. cbn in Hl, Hc, Hs. subst w c stops.
  destruct a as [| |o]; cbn [uninterrupted fold_left step world].
  - unfold moment. cbn [live pendingCreates pendingStops].
    rewrite (startRecording_cut P (screen (world j)) (world j)).
    destruct (startRecording_begin P (screen (world j)) (world j)) as [[[|]|] w'];
      cbn; now repeat split.
  - unfold moment. cbn [live pendingCreates pendingStops].
    rewrite (stopRecording_cut P (screen (world j)) (world j)).
    destruct (stopRecording_begin (screen (world j)) (world j)) as [[[r|]|] w'];
      cbn; now repeat split.
  - cbn. now repeat split.
Qed.

(** The interleaved screen contains the sequential one: gestures each
    handled to their end give the states of [run]. *)
Lemma play_uninterrupted (P : Platform) (actions : list Action) :
  live (play P (flat_map uninterrupted actions)) = world (run P actions).
Proof.
  unfold play, run.
  assert (G : forall (i : Interleaved) (j : Instance),
             live i = world j -> pendingCreates i = 0 -> pendingStops i = [] ->
             live (fold_left (moment P) (flat_map uninterrupted actions) i) =
             world (fold_left (step P) actions j)).
  { induction actions as [|a actions IH]; intros i j Hl Hc Hs; [exact Hl|].
    cbn [flat_map fold_left]. rewrite fold_left_app.
    destruct (moment_uninterrupted P i j a Hl Hc Hs) as [H1 [H2 H3]].
    now apply IH. }
  now apply G.
Qed.

(** C4 fails on the code. A second press handled while the stop of the
    first release is awaited passes the only guard, [isProcessing],
    which is still false; the first release then issues its request,
    the second recording is created, and the second release, whose
    handler has no guard on [isProcessing], issues a second request
    while the first is pending.  It is so whether the stop that
    [cleanupAudio] asks for in between resolves or rejects. *)
Theorem hasty_gestures_put_two_uploads_in_flight :
  forall overlapping : bool,
    let before := play (overlapDevice overlapping)
                    [PressBegins; CreateSettles; ReleaseBegins; PressBegins;
                     StopSettles; CreateSettles] in
    let after := play (overlapDevice overlapping) hastySchedule in
    in_flight (log (live before)) = 1
    /\ isProcessing (screen (live before)) = true
    /\ isRecording (screen (live before)) = true
    /\ recording (screen (live before)) <> None
    /\ in_flight (log (live after)) = 2
    /\ pendingCreates after = 0 /\ pendingStops after = [].
Proof.
  intros overlapping. cbv zeta.
  destruct overlapping; repeat split; discriminate.
Qed.

(** ToString on arrays and objects, as the engine answers. *)
Example to_string_samples :
  Js.to_string (Js.Arr [Js.Num "-12"; Js.Null; Js.Str "x"]) = Some "-12,,x" /\
  Js.to_string (Js.Arr [Js.Arr [Js.Num "1"; Js.Num "2.5"]; Js.Bool true]) = Some "1,2.5,true" /\
  Js.to_string (Js.Arr []) = Some EmptyString /\
  Js.to_string (Js.Obj [("error", Js.Str "x")]) = Some "[object Object]" /\
  Js.to_string (Js.Obj [("toString", Js.Null)]) = None /\
  Js.to_string (Js.Arr [Js.Str "a"; Js.Obj [("toString", Js.Num "1")]]) = None.
Proof. repeat split. Qed.
